(** * Dashboard.py: the console dashboard of the POO course repository

    A shallow embedding of [src/tasks/Dashboard.py] (class [DashboardPOO])
    and the properties of its three menus, its script viewer and its
    process launcher.

    Python values are modelled as follows.
    - [str] is a list of Unicode code points ([N]); literals of the source
      are written as UTF-8 string literals and decoded by [lit].
    - the bytes of a file are a [list Byte.byte]; [open(..., 'r',
      encoding='utf-8').read()] is the strict UTF-8 decoder followed by the
      universal-newlines translation of text mode.
    - [int] is [Z].
    - exceptions are values of [exn]; a computation is a function from the
      world to a result (returned value, raised exception, or out of fuel)
      and the world after it.
    - the operating system is an oracle held by the world ([scandir],
      [read_bytes], [spawn_error]); what depends on the platform or on the
      interpreter's Unicode tables ([os.name], [os.path], the decimal value
      of non-ASCII digits, [str(e)]) is a [runtime] record.
    - a [while True] loop is [while_true] with fuel; the section on fuel
      shows that fuel beyond the number of input lines is never used up.

    Left out of the model: [__init__] and [configurar_logging] (the log
    directory, the dated file name, the time stamp of a record);
    [KeyboardInterrupt]; failures of [print], of [logging], of
    [DirEntry.is_dir] and [is_file] and of [os.getcwd] inside
    [os.path.abspath]; changes made to the disk by other processes during
    a run; and the limit CPython puts on the number of digits [int]
    accepts (4300 by default since 3.11): a longer numeral is a
    [ValueError] there whatever its value, and is read as its value here,
    so the two differ on such a numeral padded with zeros. The theorems
    take the result of [int] as a hypothesis or compute it on short
    numerals only. *)

From Stdlib Require Import List NArith ZArith Bool Lia.
From Stdlib Require DecimalNat.
From Stdlib.Strings Require Import String Byte.
Import ListNotations.
Open Scope string_scope.
Open Scope list_scope.

Set Implicit Arguments.

(* ------------------------------------------------------------------ *)
(** ** Python [str] and [bytes] *)

Definition str := list N.

Module Utf8.

Definition cont (b : N) : bool := (128 <=? b)%N && (b <=? 191)%N.

Definition within (lo hi b : N) : bool := (lo <=? b)%N && (b <=? hi)%N.

Definition low6 (b : N) : N := (b - 128)%N.

(** Strict UTF-8, as the [utf-8] codec with [errors='strict']: no
    overlong form, no surrogate, nothing above U+10FFFF. [None] is
    [UnicodeDecodeError]. *)
Fixpoint decode (bs : list N) : option str :=
  match bs with
  | [] => Some []
  | b0 :: r0 =>
    if (b0 <? 128)%N then option_map (cons b0) (decode r0)
    else if within 194 223 b0 then
      match r0 with
      | b1 :: r1 =>
        if cont b1
        then option_map (cons ((b0 - 192) * 64 + low6 b1)%N) (decode r1)
        else None
      | [] => None
      end
    else if within 224 239 b0 then
      match r0 with
      | b1 :: b2 :: r2 =>
        if within (if (b0 =? 224)%N then 160 else 128)
                  (if (b0 =? 237)%N then 159 else 191) b1 && cont b2
        then option_map
               (cons ((b0 - 224) * 4096 + low6 b1 * 64 + low6 b2)%N)
               (decode r2)
        else None
      | _ => None
      end
    else if within 240 244 b0 then
      match r0 with
      | b1 :: b2 :: b3 :: r3 =>
        if within (if (b0 =? 240)%N then 144 else 128)
                  (if (b0 =? 244)%N then 143 else 191) b1
           && cont b2 && cont b3
        then option_map
               (cons ((b0 - 240) * 262144 + low6 b1 * 4096
                      + low6 b2 * 64 + low6 b3)%N)
               (decode r3)
        else None
      | _ => None
      end
    else None
  end.

Definition decode_bytes (bs : list byte) : option str :=
  decode (map Byte.to_N bs).

End Utf8.

(** A literal of the source. The literals of [Dashboard.py] are valid
    UTF-8, so the default branch is never taken. *)
Definition lit (s : string) : str :=
  match Utf8.decode_bytes (list_byte_of_string s) with
  | Some t => t
  | None => []
  end.

Definition str_eqb (a b : str) : bool :=
  if list_eq_dec N.eq_dec a b then true else false.

Module Py.

(** [str.isspace] on one code point (the set [str.strip] and [int]
    treat as white space). *)
Definition isspace (c : N) : bool :=
  Utf8.within 9 13 c || Utf8.within 28 32 c || (c =? 133)%N
  || (c =? 160)%N || (c =? 5760)%N || Utf8.within 8192 8202 c
  || (c =? 8232)%N || (c =? 8233)%N || (c =? 8239)%N || (c =? 8287)%N
  || (c =? 12288)%N.

Fixpoint lstrip (s : str) : str :=
  match s with
  | c :: r => if isspace c then lstrip r else s
  | [] => []
  end.

(** [s.strip()] *)
Definition strip (s : str) : str := rev (lstrip (rev (lstrip s))).

(** [c.upper()] for one code point, where the result is decided by the
    ASCII range: the letters a-z, and the two code points outside ASCII
    whose upper case is an ASCII letter (U+0131 dotless i, U+017F long
    s). Every other code point is left as it is, which is not always
    its upper case but is never an ASCII letter either, so comparisons
    of [s.upper()] with an ASCII literal are exact. *)
Definition upper1 (c : N) : N :=
  if Utf8.within 97 122 c then (c - 32)%N
  else if (c =? 305)%N then 73%N
  else if (c =? 383)%N then 83%N
  else c.

Definition upper (s : str) : str := map upper1 s.

Fixpoint startswith (s p : str) : bool :=
  match p, s with
  | [], _ => true
  | a :: p', b :: s' => (a =? b)%N && startswith s' p'
  | _ :: _, [] => false
  end.

(** [s.endswith(p)] *)
Definition endswith (s p : str) : bool := startswith (rev s) (rev p).

Fixpoint repeat_str (s : str) (n : nat) : str :=
  match n with
  | O => []
  | S k => s ++ repeat_str s k
  end.

Fixpoint digits_of_uint (d : Decimal.uint) : str :=
  match d with
  | Decimal.Nil => []
  | Decimal.D0 r => 48%N :: digits_of_uint r
  | Decimal.D1 r => 49%N :: digits_of_uint r
  | Decimal.D2 r => 50%N :: digits_of_uint r
  | Decimal.D3 r => 51%N :: digits_of_uint r
  | Decimal.D4 r => 52%N :: digits_of_uint r
  | Decimal.D5 r => 53%N :: digits_of_uint r
  | Decimal.D6 r => 54%N :: digits_of_uint r
  | Decimal.D7 r => 55%N :: digits_of_uint r
  | Decimal.D8 r => 56%N :: digits_of_uint r
  | Decimal.D9 r => 57%N :: digits_of_uint r
  end.

(** [str(i)] for a natural number, as in [f"{i} - ..."] *)
Definition str_of_nat (n : nat) : str := digits_of_uint (Nat.to_uint n).

(** Universal newlines of text mode ([newline=None]): on reading,
    [\r\n] and a lone [\r] become [\n]. *)
Fixpoint translate_newlines (t : str) : str :=
  match t with
  | [] => []
  | c :: r =>
    if (c =? 13)%N then
      match r with
      | d :: r' =>
        if (d =? 10)%N then 10%N :: translate_newlines r'
        else 10%N :: translate_newlines r
      | [] => [10%N]
      end
    else c :: translate_newlines r
  end.

Section Int.

(** [Py_UNICODE_TODECIMAL] outside ASCII: the decimal value of a code
    point of category Nd, from the interpreter's Unicode database. *)
Variable nd_value : N -> option N.

Definition todecimal (c : N) : option N :=
  if Utf8.within 48 57 c then Some (c - 48)%N
  else if (c <? 128)%N then None
  else nd_value c.

(** The digits of a base-10 literal; an underscore is accepted only
    between two digits. [prev] tells whether the previous character was
    a digit. *)
Fixpoint parse_digits (acc : Z) (prev : bool) (s : str) : option Z :=
  match s with
  | [] => if prev then Some acc else None
  | c :: r =>
    if (c =? 95)%N then
      if prev then parse_digits acc false r else None
    else
      match todecimal c with
      | Some d => parse_digits (10 * acc + Z.of_N d)%Z true r
      | None => None
      end
  end.

(** [int(s)]: surrounding white space, an optional sign, digits.
    [None] is [ValueError]. *)
Definition int (s : str) : option Z :=
  match strip s with
  | c :: r =>
    if (c =? 43)%N then parse_digits 0 false r
    else if (c =? 45)%N then option_map Z.opp (parse_digits 0 false r)
    else parse_digits 0 false (c :: r)
  | [] => None
  end.

End Int.

End Py.

(* ------------------------------------------------------------------ *)
(** ** Exceptions, the runtime and the world *)

Inductive os_error :=
| FileNotFoundError
| PermissionError
| NotADirectoryError
| IsADirectoryError
| OtherOSError.

(** The exceptions the program can meet. All of them are subclasses of
    [Exception]; [UnicodeDecodeError] is a subclass of [ValueError]. *)
Inductive exn :=
| EOFError
| ValueError (message : str)
| UnicodeDecodeError (data : list byte)
| OSError (sub : os_error) (filename : str).

Definition is_ValueError (e : exn) : bool :=
  match e with
  | ValueError _ | UnicodeDecodeError _ => true
  | _ => false
  end.

Definition is_Exception (e : exn) : bool := true.

(** What the program takes from the platform and the interpreter. *)
Record runtime := {
  os_name : str;                      (* os.name *)
  path_join : str -> str -> str;      (* os.path.join *)
  path_abspath : str -> str;          (* os.path.abspath *)
  path_basename : str -> str;         (* os.path.basename *)
  nd_value : N -> option N;           (* decimal digits outside ASCII *)
  exc_str : exn -> str                (* str(e) *)
}.

(** [os.DirEntry]: the name of an entry and what it resolves to, symbolic
    links followed. An entry can be neither a directory nor a file. *)
Module DirEntry.
Inductive kind := Directory | RegularFile | Other.
Record t := { name : str; entry_kind : kind }.
Definition is_dir (f : t) : bool :=
  match entry_kind f with Directory => true | _ => false end.
Definition is_file (f : t) : bool :=
  match entry_kind f with RegularFile => true | _ => false end.
End DirEntry.

Inductive level := INFO | WARNING | ERROR.

(** What reaches the console: a [print] call (the text, then a newline)
    or the prompt of an [input] call. *)
Inductive event :=
| Print (text : str)
| Prompt (text : str).

Record world := {
  scandir : str -> exn + list DirEntry.t;   (* os.scandir, iterated *)
  read_bytes : str -> exn + list byte;      (* open and read, raw *)
  spawn_error : list str -> option exn;     (* why Popen would fail *)
  stdin : list str;                         (* the lines still to come *)
  stdout : list event;
  logfile : list (level * str);
  processes : list (list str)               (* the argv of each child *)
}.

Definition set_stdin (l : list str) (w : world) : world :=
  {| scandir := scandir w; read_bytes := read_bytes w;
     spawn_error := spawn_error w; stdin := l; stdout := stdout w;
     logfile := logfile w; processes := processes w |}.

Definition emit (evs : list event) (w : world) : world :=
  {| scandir := scandir w; read_bytes := read_bytes w;
     spawn_error := spawn_error w; stdin := stdin w;
     stdout := stdout w ++ evs;
     logfile := logfile w; processes := processes w |}.

Definition record (recs : list (level * str)) (w : world) : world :=
  {| scandir := scandir w; read_bytes := read_bytes w;
     spawn_error := spawn_error w; stdin := stdin w; stdout := stdout w;
     logfile := logfile w ++ recs; processes := processes w |}.

Definition spawn (argv : list str) (w : world) : world :=
  {| scandir := scandir w; read_bytes := read_bytes w;
     spawn_error := spawn_error w; stdin := stdin w; stdout := stdout w;
     logfile := logfile w; processes := processes w ++ [argv] |}.

(* ------------------------------------------------------------------ *)
(** ** Computations *)

Inductive result (A : Type) :=
| Return (a : A)
| Raise (e : exn)
| OutOfFuel.

Arguments Raise {A} e.
Arguments OutOfFuel {A}.

Definition M (A : Type) := world -> result A * world.

Definition ret {A} (a : A) : M A := fun w => (Return a, w).

Definition raise {A} (e : exn) : M A := fun w => (Raise e, w).

Definition bind {A B} (m : M A) (k : A -> M B) : M B :=
  fun w =>
    match m w with
    | (Return a, w') => k a w'
    | (Raise e, w') => (Raise e, w')
    | (OutOfFuel, w') => (OutOfFuel, w')
    end.

Notation "x <- m ;; k" := (bind m (fun x => k))
  (at level 61, m at next level, right associativity).
Notation "m ;;; k" := (bind m (fun _ => k))
  (at level 61, right associativity).

(** [try: body / except C as e: handler e], with [C] given by [catches]. *)
Definition try_except {A} (body : M A) (catches : exn -> bool)
           (handler : exn -> M A) : M A :=
  fun w =>
    match body w with
    | (Raise e, w') => if catches e then handler e w' else (Raise e, w')
    | r => r
    end.

Definition print (s : str) : M unit :=
  fun w => (Return tt, emit [Print s] w).

(** [input(prompt)]: the prompt is written, then a line is read;
    [EOFError] at the end of the input. *)
Definition input (prompt : str) : M str :=
  fun w =>
    match stdin w with
    | l :: rest => (Return l, set_stdin rest (emit [Prompt prompt] w))
    | [] => (Raise EOFError, emit [Prompt prompt] w)
    end.

(** [logging.info], [logging.warning], [logging.error]: the root logger is
    at level INFO, so each call writes one record. *)
Definition logging (lv : level) (msg : str) : M unit :=
  fun w => (Return tt, record [(lv, msg)] w).

Definition os_scandir (ruta : str) : M (list DirEntry.t) :=
  fun w =>
    match scandir w ruta with
    | inr entries => (Return entries, w)
    | inl e => (Raise e, w)
    end.

(** [with open(path, 'r', encoding='utf-8') as archivo: archivo.read()] *)
Definition open_read (path : str) : M str :=
  fun w =>
    match read_bytes w path with
    | inl e => (Raise e, w)
    | inr bs =>
      match Utf8.decode_bytes bs with
      | Some t => (Return (Py.translate_newlines t), w)
      | None => (Raise (UnicodeDecodeError bs), w)
      end
    end.

(** [subprocess.Popen(argv)]: the child is started and not waited for. *)
Definition Popen (argv : list str) : M unit :=
  fun w =>
    match spawn_error w argv with
    | None => (Return tt, spawn argv w)
    | Some e => (Raise e, w)
    end.

Fixpoint for_each {A} (l : list A) (body : A -> M unit) : M unit :=
  match l with
  | [] => ret tt
  | x :: r => body x ;;; for_each r body
  end.

(** [enumerate(l, start)] *)
Fixpoint enumerate {A} (l : list A) (start : nat) : list (nat * A) :=
  match l with
  | [] => []
  | x :: r => (start, x) :: enumerate r (S start)
  end.

(** The two ways an iteration of a loop ends. *)
Inductive ctl := Break | Continue.

(** [while True: body]. An iteration is given the fuel that is left, for
    the loops it calls. *)
Fixpoint while_true (fuel : nat) (body : nat -> M ctl) : M unit :=
  match fuel with
  | O => fun w => (OutOfFuel, w)
  | S fuel' =>
    c <- body fuel' ;;
    match c with
    | Break => ret tt
    | Continue => while_true fuel' body
    end
  end.

Definition nl : str := [10%N].

(** The truth value of an [Optional[str]]: [None] and the empty string
    are false. *)
Definition truthy (o : option str) : bool :=
  match o with
  | Some (_ :: _) => true
  | _ => false
  end.

Fixpoint lookup (k : str) (d : list (str * str)) : option str :=
  match d with
  | [] => None
  | (k', v) :: r => if str_eqb k k' then Some v else lookup k r
  end.

(* ------------------------------------------------------------------ *)
(** ** class DashboardPOO *)

Record DashboardPOO := {
  ruta_base : str;
  unidades : list (str * str)     (* a dict, in insertion order *)
}.

(** The attributes [__init__] sets ([ruta_base] is the directory of the
    module file). *)
Definition nuevo (base : str) : DashboardPOO :=
  {| ruta_base := base;
     unidades :=
       [ (lit "1", lit "Unidad 1 - Fundamentos POO");
         (lit "2", lit "Unidad 2 - Herencia y Polimorfismo");
         (lit "3", lit "Unidad 3 - Patrones de Diseño");
         (lit "4", lit "Unidad 4 - Proyectos Prácticos") ] |}.

(** The [ValueError] of [int(s)]. The quoted text is [repr(s)] without its
    escapes; no handler of the program reads it. *)
Definition invalid_literal (s : str) : exn :=
  ValueError (lit "invalid literal for int() with base 10: '" ++ s ++ lit "'").

Section Methods.

Variable rt : runtime.

Definition mostrar_codigo (ruta_script : str) : M (option str) :=
  let ruta_script_absoluta := path_abspath rt ruta_script in
  try_except
    (codigo <- open_read ruta_script_absoluta ;;
     print (nl ++ Py.repeat_str (lit "=") 50) ;;;
     print (lit "Código de " ++ path_basename rt ruta_script ++ lit ":") ;;;
     print (Py.repeat_str (lit "=") 50 ++ nl) ;;;
     print codigo ;;;
     logging INFO (lit "Archivo visualizado: " ++ ruta_script) ;;;
     ret (Some codigo))
    is_Exception
    (fun e =>
       logging ERROR (lit "Error al leer archivo " ++ ruta_script
                      ++ lit ": " ++ exc_str rt e) ;;;
       print (nl ++ lit "⚠️ Error: " ++ exc_str rt e) ;;;
       ret None).

Definition ejecutar_codigo (ruta_script : str) : M unit :=
  try_except
    ((if str_eqb (os_name rt) (lit "nt")
      then Popen [lit "cmd"; lit "/k"; lit "python"; ruta_script]
      else Popen [lit "xterm"; lit "-hold"; lit "-e"; lit "python3";
                  ruta_script]) ;;;
     logging INFO (lit "Script ejecutado: " ++ ruta_script))
    is_Exception
    (fun e =>
       logging ERROR (lit "Error al ejecutar " ++ ruta_script
                      ++ lit ": " ++ exc_str rt e) ;;;
       print (nl ++ lit "⚠️ Error al ejecutar: " ++ exc_str rt e)).

Definition obtener_subcarpetas (ruta : str) : M (list str) :=
  entries <- os_scandir ruta ;;
  ret (map DirEntry.name (filter DirEntry.is_dir entries)).

Definition obtener_scripts (ruta : str) : M (list str) :=
  entries <- os_scandir ruta ;;
  ret (map DirEntry.name
           (filter (fun f => DirEntry.is_file f
                             && Py.endswith (DirEntry.name f) (lit ".py"))
                   entries)).

(** The numbered lines of a submenu:
    [for i, x in enumerate(l, 1): print(f"{i} - {x}")] *)
Definition print_numbered (l : list str) : M unit :=
  for_each (enumerate l 1)
           (fun ix => print (Py.str_of_nat (fst ix) ++ lit " - " ++ snd ix)).

(** The body of the [try] of [mostrar_menu_scripts], for the listing
    and the choice of one iteration. *)
Definition elegir_script (ruta_tema : str) (scripts : list str)
           (eleccion : str) : M unit :=
  match Py.int (nd_value rt) eleccion with
  | None => raise (invalid_literal eleccion)
  | Some n =>
    let idx := (n - 1)%Z in
    if (0 <=? idx)%Z && (idx <? Z.of_nat (List.length scripts))%Z then
      let ruta_script :=
        path_join rt ruta_tema (nth (Z.to_nat idx) scripts []) in
      codigo <- mostrar_codigo ruta_script ;;
      (if truthy codigo then
         respuesta <- input (nl ++ lit "¿Desea ejecutar el script? (S/N): ") ;;
         if str_eqb (Py.upper respuesta) (lit "S")
         then ejecutar_codigo ruta_script
         else ret tt
       else ret tt) ;;;
      _ <- input (nl ++ lit "Presione Enter para continuar...") ;;
      ret tt
    else print (nl ++ lit "⚠️ Script no válido")
  end.

Definition mostrar_menu_scripts (fuel : nat) (ruta_tema : str) : M unit :=
  while_true fuel (fun _ =>
    scripts <- obtener_scripts ruta_tema ;;
    print (nl ++ lit "📝 Scripts Disponibles") ;;;
    print (Py.repeat_str (lit "=") 40) ;;;
    print_numbered scripts ;;;
    print (lit "0 - Volver al menú de temas") ;;;
    print (Py.repeat_str (lit "=") 40) ;;;
    linea <- input (nl ++ lit "Seleccione un script: ") ;;
    let eleccion := Py.strip linea in
    if str_eqb eleccion (lit "0") then ret Break
    else
      try_except
        (elegir_script ruta_tema scripts eleccion)
        is_ValueError
        (fun _ => print (nl ++ lit "⚠️ Por favor, ingrese un número válido")) ;;;
      ret Continue).

(** The body of the [try] of [mostrar_submenu]; [fuel] bounds the
    iterations of the menu of scripts it enters. *)
Definition elegir_tema (fuel : nat) (ruta_unidad : str)
           (subcarpetas : list str) (eleccion : str) : M unit :=
  match Py.int (nd_value rt) eleccion with
  | None => raise (invalid_literal eleccion)
  | Some n =>
    let idx := (n - 1)%Z in
    if (0 <=? idx)%Z && (idx <? Z.of_nat (List.length subcarpetas))%Z then
      mostrar_menu_scripts
        fuel (path_join rt ruta_unidad (nth (Z.to_nat idx) subcarpetas []))
    else print (nl ++ lit "⚠️ Tema no válido")
  end.

Definition mostrar_submenu (fuel : nat) (ruta_unidad : str) : M unit :=
  while_true fuel (fun fuel' =>
    subcarpetas <- obtener_subcarpetas ruta_unidad ;;
    print (nl ++ lit "📚 Temas Disponibles") ;;;
    print (Py.repeat_str (lit "=") 40) ;;;
    print_numbered subcarpetas ;;;
    print (lit "0 - Volver al menú principal") ;;;
    print (Py.repeat_str (lit "=") 40) ;;;
    linea <- input (nl ++ lit "Seleccione un tema: ") ;;
    let eleccion := Py.strip linea in
    if str_eqb eleccion (lit "0") then ret Break
    else
      try_except
        (elegir_tema fuel' ruta_unidad subcarpetas eleccion)
        is_ValueError
        (fun _ => print (nl ++ lit "⚠️ Por favor, ingrese un número válido")) ;;;
      ret Continue).

Variable self : DashboardPOO.

Definition mostrar_menu_principal (fuel : nat) : M unit :=
  while_true fuel (fun fuel' =>
    print (nl ++ lit "🎯 Dashboard POO - Menú Principal") ;;;
    print (Py.repeat_str (lit "=") 40) ;;;
    for_each (unidades self)
             (fun kv => print (fst kv ++ lit " - " ++ snd kv)) ;;;
    print (lit "0 - Salir") ;;;
    print (Py.repeat_str (lit "=") 40) ;;;
    linea <- input (nl ++ lit "Seleccione una opción: ") ;;
    let eleccion := Py.strip linea in
    if str_eqb eleccion (lit "0") then
      print (nl ++ lit "👋 ¡Hasta pronto!") ;;;
      logging INFO (lit "Sesión finalizada") ;;;
      ret Break
    else
      match lookup eleccion (unidades self) with
      | Some unidad =>
        mostrar_submenu fuel' (path_join rt (ruta_base self) unidad) ;;;
        ret Continue
      | None =>
        print (nl ++ lit "⚠️ Opción no válida") ;;;
        logging WARNING (lit "Opción inválida seleccionada: " ++ eleccion) ;;;
        ret Continue
      end).

End Methods.

(* ------------------------------------------------------------------ *)
(** ** A POSIX runtime and a small disk, for the examples *)

Module Posix.

Definition sep : N := 47%N.

(** [posixpath.join(a, b)] *)
Definition join (a b : str) : str :=
  if Py.startswith b [sep] then b
  else if match a with [] => true | _ => Py.endswith a [sep] end
       then a ++ b
       else a ++ [sep] ++ b.

(** [p.split('/')], with the component being read in [cur], reversed. *)
Fixpoint split (p : str) (cur : str) : list str :=
  match p with
  | [] => [rev cur]
  | c :: r => if (c =? sep)%N then rev cur :: split r [] else split r (c :: cur)
  end.

(** [posixpath.basename(p)] *)
Definition basename (p : str) : str := last (split p []) [].

(** One step of the loop of [normpath]; [stack] is [new_comps],
    reversed. *)
Definition norm_step (rooted : bool) (stack : list str) (comp : str)
  : list str :=
  if str_eqb comp [] || str_eqb comp (lit ".") then stack
  else if negb (str_eqb comp (lit ".."))
          || (negb rooted && match stack with [] => true | _ => false end)
          || match stack with
             | top :: _ => str_eqb top (lit "..")
             | [] => false
             end
       then comp :: stack
       else tl stack.

Fixpoint join_with_sep (l : list str) : str :=
  match l with
  | [] => []
  | [x] => x
  | x :: r => x ++ [sep] ++ join_with_sep r
  end.

(** [posixpath.normpath(p)] *)
Definition normpath (p : str) : str :=
  match p with
  | [] => lit "."
  | _ =>
    let slashes : nat :=
      if Py.startswith p [sep] then
        if Py.startswith p [sep; sep] && negb (Py.startswith p [sep; sep; sep])
        then 2 else 1
      else 0 in
    let comps :=
      rev (fold_left (norm_step (negb (Nat.eqb slashes 0))) (split p []) []) in
    match Py.repeat_str [sep] slashes ++ join_with_sep comps with
    | [] => lit "."
    | q => q
    end
  end.

(** [posixpath.abspath(p)] with [os.getcwd()] being [cwd] *)
Definition abspath (cwd p : str) : str :=
  normpath (if Py.startswith p [sep] then p else join cwd p).

(** [str(e)] in the style of CPython; the position and the reason of a
    decoding error, and the escapes of [repr], are left out. *)
Definition message (e : exn) : str :=
  match e with
  | EOFError => []
  | ValueError m => m
  | UnicodeDecodeError _ => lit "'utf-8' codec can't decode bytes"
  | OSError sub f =>
    (match sub with
     | FileNotFoundError => lit "[Errno 2] No such file or directory: '"
     | PermissionError => lit "[Errno 13] Permission denied: '"
     | NotADirectoryError => lit "[Errno 20] Not a directory: '"
     | IsADirectoryError => lit "[Errno 21] Is a directory: '"
     | OtherOSError => lit "[Errno 5] Input/output error: '"
     end) ++ f ++ lit "'"
  end.

Definition rt (cwd : str) : runtime :=
  {| os_name := lit "posix";
     path_join := join;
     path_abspath := abspath cwd;
     path_basename := basename;
     nd_value := fun _ => None;
     exc_str := message |}.

End Posix.

Module Disk.

Fixpoint find {A} (k : str) (l : list (str * A)) : option A :=
  match l with
  | [] => None
  | (k', v) :: r => if str_eqb k k' then Some v else find k r
  end.

Definition dir (n : string) : DirEntry.t :=
  {| DirEntry.name := lit n; DirEntry.entry_kind := DirEntry.Directory |}.

Definition file (n : string) : DirEntry.t :=
  {| DirEntry.name := lit n; DirEntry.entry_kind := DirEntry.RegularFile |}.

(** A world over a disk given by its directories and its files, with
    nothing printed, logged or started yet. [terminals] are the
    programs [Popen] finds. *)
Definition world_of (dirs : list (str * list DirEntry.t))
           (files : list (str * list byte)) (terminals : list str)
           (lines : list str) : world :=
  {| scandir := fun p =>
       match find p dirs with
       | Some entries => inr entries
       | None =>
         match find p files with
         | Some _ => inl (OSError NotADirectoryError p)
         | None => inl (OSError FileNotFoundError p)
         end
       end;
     read_bytes := fun p =>
       match find p files with
       | Some bs => inr bs
       | None =>
         match find p dirs with
         | Some _ => inl (OSError IsADirectoryError p)
         | None => inl (OSError FileNotFoundError p)
         end
       end;
     spawn_error := fun argv =>
       match argv with
       | prog :: _ =>
         if existsb (str_eqb prog) terminals then None
         else Some (OSError FileNotFoundError prog)
       | [] => Some (ValueError [])
       end;
     stdin := lines;
     stdout := [];
     logfile := [];
     processes := [] |}.

Definition unidad1 : str := lit "/repo/Unidad 1 - Fundamentos POO".
Definition tema1 : str := lit "/repo/Unidad 1 - Fundamentos POO/ClassesIntro".
Definition hello : str :=
  lit "/repo/Unidad 1 - Fundamentos POO/ClassesIntro/hello.py".
Definition vacio : str :=
  lit "/repo/Unidad 1 - Fundamentos POO/ClassesIntro/vacio.py".
Definition dos : str :=
  lit "/repo/Unidad 1 - Fundamentos POO/ClassesIntro/dos.py".

(** [/repo] holds the first unit only; its one topic has a script
    [hello.py], an empty script [vacio.py], a script [dos.py] with a
    Windows line end, and a file of notes. *)
Definition demo (lines : list string) : world :=
  world_of
    [ (lit "/repo", [dir "Unidad 1 - Fundamentos POO"; dir "logs"]);
      (unidad1, [dir "ClassesIntro"; file "LEEME.txt"]);
      (tema1, [file "hello.py"; file "notas.txt"; file "vacio.py";
               dir "viejo.py"; file "dos.py"]) ]
    [ (hello, list_byte_of_string "print('hi')");
      (vacio, []);
      (dos, [x61; x0d; x0a; x62]) ]
    [lit "xterm"]
    (map lit lines).

End Disk.

Definition posix : runtime := Posix.rt (lit "/repo").
Definition tablero : DashboardPOO := nuevo (lit "/repo").

(* ------------------------------------------------------------------ *)
(** ** The menus as states, and what each one renders *)

(** The three loops of the controller. A state is the loop being
    executed, with the path it was called with. *)
Inductive state :=
| MAIN
| TOPIC (unit_path : str)
| SCRIPT (topic_path : str).

Definition run (rt : runtime) (self : DashboardPOO) (fuel : nat) (s : state)
  : M unit :=
  match s with
  | MAIN => mostrar_menu_principal rt self fuel
  | TOPIC p => mostrar_submenu rt fuel p
  | SCRIPT p => mostrar_menu_scripts rt fuel p
  end.

Definition bar (n : nat) : str := Py.repeat_str (lit "=") n.

Definition numbered (l : list str) : list event :=
  map (fun ix => Print (Py.str_of_nat (fst ix) ++ lit " - " ++ snd ix))
      (enumerate l 1).

(** What one iteration of a menu writes before it reads the choice. *)
Definition render_main (self : DashboardPOO) : list event :=
  [Print (nl ++ lit "🎯 Dashboard POO - Menú Principal"); Print (bar 40)]
  ++ map (fun kv => Print (fst kv ++ lit " - " ++ snd kv)) (unidades self)
  ++ [Print (lit "0 - Salir"); Print (bar 40);
      Prompt (nl ++ lit "Seleccione una opción: ")].

Definition render_topic (subcarpetas : list str) : list event :=
  [Print (nl ++ lit "📚 Temas Disponibles"); Print (bar 40)]
  ++ numbered subcarpetas
  ++ [Print (lit "0 - Volver al menú principal"); Print (bar 40);
      Prompt (nl ++ lit "Seleccione un tema: ")].

Definition render_script (scripts : list str) : list event :=
  [Print (nl ++ lit "📝 Scripts Disponibles"); Print (bar 40)]
  ++ numbered scripts
  ++ [Print (lit "0 - Volver al menú de temas"); Print (bar 40);
      Prompt (nl ++ lit "Seleccione un script: ")].

(** The names a submenu lists, when its directory can be listed. *)
Definition subcarpetas_de (entries : list DirEntry.t) : list str :=
  map DirEntry.name (filter DirEntry.is_dir entries).

Definition scripts_de (entries : list DirEntry.t) : list str :=
  map DirEntry.name
      (filter (fun f => DirEntry.is_file f
                        && Py.endswith (DirEntry.name f) (lit ".py"))
              entries).

Definition listing (s : state) (w : world) : option (list str) :=
  match s with
  | MAIN => None
  | TOPIC p =>
    match scandir w p with inr es => Some (subcarpetas_de es) | inl _ => None end
  | SCRIPT p =>
    match scandir w p with inr es => Some (scripts_de es) | inl _ => None end
  end.

Definition render (s : state) (l : list str) : list event :=
  match s with
  | MAIN => []
  | TOPIC _ => render_topic l
  | SCRIPT _ => render_script l
  end.

(** A warning line of the console: every warning of the program is one
    [print] of a line break and the warning sign. *)
Definition is_warning (ev : event) : bool :=
  match ev with
  | Print t => Py.startswith t (nl ++ [9888%N])
  | Prompt _ => false
  end.


(** Why reading a script as text fails, if it does: the error of [open]
    or [read], or the bytes are not UTF-8. *)
Definition read_error (w : world) (path : str) : option exn :=
  match read_bytes w path with
  | inl e => Some e
  | inr bs =>
    match Utf8.decode_bytes bs with
    | Some _ => None
    | None => Some (UnicodeDecodeError bs)
    end
  end.

(** A computation has settled when it did not stop for lack of fuel; it
    never puts lines back on the input. *)
Definition settled {A} (before : world) (out : result A * world) : Prop :=
  fst out <> OutOfFuel
  /\ List.length (stdin (snd out)) <= List.length (stdin before).

Definition prompt_run : event :=
  Prompt (nl ++ lit "¿Desea ejecutar el script? (S/N): ").


(** What a successful view writes to the console. *)
Definition banner (rt : runtime) (ruta_script codigo : str) : list event :=
  [ Print (nl ++ bar 50);
    Print (lit "Código de " ++ path_basename rt ruta_script ++ lit ":");
    Print (bar 50 ++ nl);
    Print codigo ].

(** The command line [ejecutar_codigo] gives to [Popen]. *)
Definition terminal_argv (rt : runtime) (ruta_script : str) : list str :=
  if str_eqb (os_name rt) (lit "nt")
  then [lit "cmd"; lit "/k"; lit "python"; ruta_script]
  else [lit "xterm"; lit "-hold"; lit "-e"; lit "python3"; ruta_script].

(** [w'] comes after [w]: the disk and the programs [Popen] finds are
    the same, lines were only taken from the front of the input, and the
    console, the log and the list of children only grew at their end. *)
Definition extends (w w' : world) : Prop :=
  scandir w' = scandir w
  /\ read_bytes w' = read_bytes w
  /\ spawn_error w' = spawn_error w
  /\ (exists used, stdin w = used ++ stdin w')
  /\ (exists out, stdout w' = stdout w ++ out)
  /\ (exists recs, logfile w' = logfile w ++ recs)
  /\ (exists ps, processes w' = processes w ++ ps).

(** A command line that runs a script some directory lists: a regular
    file of that directory whose name ends with [.py]. *)
Definition runs_listed_script (rt : runtime) (w : world) (argv : list str)
  : Prop :=
  exists p entries name,
    scandir w p = inr entries
    /\ In name (scripts_de entries)
    /\ argv = terminal_argv rt (path_join rt p name).

(** A command line started right after the view of its script: the log
    holds the record of the view and, next to it, the record of the
    launch of the same path. *)
Definition launched_after_view (rt : runtime) (log : list (level * str))
           (argv : list str) : Prop :=
  exists ruta a b,
    argv = terminal_argv rt ruta
    /\ log = a ++ (INFO, lit "Archivo visualizado: " ++ ruta)
                :: (INFO, lit "Script ejecutado: " ++ ruta) :: b.


(** The universal newlines of text mode, as a relation between the text
    decoded and the text read: a carriage return followed by a line feed,
    and a carriage return followed by anything else or by nothing, are
    each read as one line feed; every other character is read as it is. *)
Inductive universal_newlines : str -> str -> Prop :=
| un_end : universal_newlines [] []
| un_crlf r r' :
    universal_newlines r r' ->
    universal_newlines (13%N :: 10%N :: r) (10%N :: r')
| un_cr r r' :
    (forall r0, r <> 10%N :: r0) ->
    universal_newlines r r' ->
    universal_newlines (13%N :: r) (10%N :: r')
| un_other c r r' :
    c <> 13%N ->
    universal_newlines r r' ->
    universal_newlines (c :: r) (c :: r').

(** A world with no disk and no terminal program to start. *)
Definition sin_terminal : world := Disk.world_of [] [] [] [].

Arguments lit : simpl never.
Arguments str_eqb : simpl never.
Arguments Py.repeat_str : simpl never.
Arguments Py.strip : simpl never.
Arguments Py.upper : simpl never.
Arguments Py.int : simpl never.
Arguments Py.endswith : simpl never.
Arguments Py.str_of_nat : simpl never.
Arguments Py.translate_newlines : simpl never.
Arguments Utf8.decode_bytes : simpl never.

(* ------------------------------------------------------------------ *)
(** ** Worlds: algebra of the updates *)

Lemma emit_emit (a b : list event) (w : world) :
  emit b (emit a w) = emit (a ++ b) w.
Proof. unfold emit; simpl. now rewrite <- app_assoc. Qed.

Lemma emit_nil (w : world) : emit [] w = w.
Proof. destruct w; unfold emit; simpl. now rewrite app_nil_r. Qed.


Lemma record_emit (r : list (level * str)) (a : list event) (w : world) :
  record r (emit a w) = emit a (record r w).
Proof. reflexivity. Qed.

Lemma str_eqb_eq (a b : str) : str_eqb a b = true <-> a = b.
Proof.
  unfold str_eqb. destruct (list_eq_dec N.eq_dec a b); split; congruence.
Qed.

Lemma str_eqb_neq (a b : str) : str_eqb a b = false <-> a <> b.
Proof.
  unfold str_eqb. destruct (list_eq_dec N.eq_dec a b); split; congruence.
Qed.

Lemma str_eqb_refl (a : str) : str_eqb a a = true.
Proof. now apply str_eqb_eq. Qed.

(* ------------------------------------------------------------------ *)
(** ** Strings *)

Lemma startswith_spec (s p : str) :
  Py.startswith s p = true <-> exists t, s = p ++ t.
Proof.
  revert s; induction p as [|a p IH]; intros s; simpl.
  - split; [exists s; reflexivity | now destruct s].
  - destruct s as [|b s]; simpl.
    + split; [discriminate | intros [t H]; discriminate].
    + rewrite andb_true_iff, N.eqb_eq, IH. split.
      * intros [-> [t ->]]. now exists t.
      * intros [t H]. injection H as -> ->. split; [reflexivity | now exists t].
Qed.

Lemma endswith_spec (s p : str) :
  Py.endswith s p = true <-> exists t, s = t ++ p.
Proof.
  unfold Py.endswith. rewrite startswith_spec. split.
  - intros [t H]. exists (rev t).
    rewrite <- (rev_involutive s), H, rev_app_distr. now rewrite rev_involutive.
  - intros [t ->]. exists (rev t). now rewrite rev_app_distr.
Qed.

(* ------------------------------------------------------------------ *)
(** ** The lister, the viewer and the launcher *)

Section Leaves.

(** C7. On a directory that can be listed, [obtener_subcarpetas] returns
    the names (not the paths) of the entries that are directories and
    [obtener_scripts] the names of the entries that are files and whose
    name ends with [.py], both in the order of the enumeration; when the
    listing fails, both raise the error of the filesystem to the caller,
    the world untouched. *)
Theorem listers_names_or_error (ruta : str) (w : world) :
  (forall entries, scandir w ruta = inr entries ->
     obtener_subcarpetas ruta w
       = (Return (map DirEntry.name (filter DirEntry.is_dir entries)), w)
     /\ (forall n, In n (subcarpetas_de entries) <->
           exists f, In f entries /\ DirEntry.name f = n
                     /\ DirEntry.entry_kind f = DirEntry.Directory)
     /\ obtener_scripts ruta w = (Return (scripts_de entries), w)
     /\ (forall n, In n (scripts_de entries) <->
           exists f, In f entries /\ DirEntry.name f = n
                     /\ DirEntry.entry_kind f = DirEntry.RegularFile
                     /\ exists stem, n = stem ++ lit ".py"))
  /\ (forall e, scandir w ruta = inl e ->
        obtener_subcarpetas ruta w = (Raise e, w)
        /\ obtener_scripts ruta w = (Raise e, w)).
Proof.
  split.
  - intros entries H.
    unfold obtener_subcarpetas, obtener_scripts, bind, os_scandir, ret.
    rewrite H. repeat split; try reflexivity.
    + unfold subcarpetas_de. rewrite in_map_iff.
      intros [f [Hn Hf]]. apply filter_In in Hf as [Hin Hd].
      exists f. repeat split; trivial.
      unfold DirEntry.is_dir in Hd. now destruct (DirEntry.entry_kind f).
    + intros [f [Hin [Hn Hk]]]. unfold subcarpetas_de.
      apply in_map_iff. exists f. split; trivial.
      apply filter_In. split; trivial. unfold DirEntry.is_dir. now rewrite Hk.
    + unfold scripts_de. rewrite in_map_iff.
      intros [f [Hn Hf]]. apply filter_In in Hf as [Hin Hd].
      apply andb_true_iff in Hd as [Hd Hs].
      exists f. repeat split; trivial.
      * unfold DirEntry.is_file in Hd. now destruct (DirEntry.entry_kind f).
      * rewrite <- Hn. now apply endswith_spec.
    + intros [f [Hin [Hn [Hk Hs]]]]. unfold scripts_de.
      apply in_map_iff. exists f. split; trivial.
      apply filter_In. split; trivial. apply andb_true_iff. split.
      * unfold DirEntry.is_file. now rewrite Hk.
      * rewrite Hn. now apply endswith_spec.
  - intros e H.
    unfold obtener_subcarpetas, obtener_scripts, bind, os_scandir.
    now rewrite H.
Qed.

Variable rt : runtime.

Lemma translate_newlines_without_cr (t : str) :
  ~ In 13%N t -> Py.translate_newlines t = t.
Proof.
  induction t as [|c r IH]; intros H; [reflexivity|].
  change (Py.translate_newlines (c :: r))
    with (if (c =? 13)%N
          then match r with
               | d :: r' =>
                 if (d =? 10)%N then 10%N :: Py.translate_newlines r'
                 else 10%N :: Py.translate_newlines r
               | [] => [10%N]
               end
          else c :: Py.translate_newlines r).
  destruct (N.eqb_spec c 13) as [->|_].
  - exfalso. apply H. now left.
  - f_equal. apply IH. intros Hin. apply H. now right.
Qed.

Lemma mostrar_codigo_ok (ruta_script : str) (w : world) bs t :
  read_bytes w (path_abspath rt ruta_script) = inr bs ->
  Utf8.decode_bytes bs = Some t ->
  mostrar_codigo rt ruta_script w
  = (Return (Some (Py.translate_newlines t)),
     record [(INFO, lit "Archivo visualizado: " ++ ruta_script)]
            (emit (banner rt ruta_script (Py.translate_newlines t)) w)).
Proof.
  intros Hr Hd.
  unfold mostrar_codigo, try_except, bind, open_read, print, logging, ret.
  rewrite Hr, Hd. rewrite !emit_emit. reflexivity.
Qed.

Lemma mostrar_codigo_error (ruta_script : str) (w : world) e :
  read_error w (path_abspath rt ruta_script) = Some e ->
  mostrar_codigo rt ruta_script w
  = (Return None,
     emit [Print (nl ++ lit "⚠️ Error: " ++ exc_str rt e)]
          (record [(ERROR, lit "Error al leer archivo " ++ ruta_script
                           ++ lit ": " ++ exc_str rt e)] w)).
Proof.
  unfold read_error. intros H.
  unfold mostrar_codigo, try_except, bind, open_read, print, logging, ret.
  destruct (read_bytes w (path_abspath rt ruta_script)) as [e'|bs].
  - injection H as ->. reflexivity.
  - destruct (Utf8.decode_bytes bs); [discriminate|].
    injection H as <-. reflexivity.
Qed.

Lemma translate_newlines_cons (c : N) (r : str) :
  Py.translate_newlines (c :: r)
  = if (c =? 13)%N
    then match r with
         | d :: r' =>
           if (d =? 10)%N then 10%N :: Py.translate_newlines r'
           else 10%N :: Py.translate_newlines r
         | [] => [10%N]
         end
    else c :: Py.translate_newlines r.
Proof. reflexivity. Qed.

Lemma translate_is_universal (t : str) :
  universal_newlines t (Py.translate_newlines t).
Proof.
  assert (H : forall n t, List.length t <= n ->
                          universal_newlines t (Py.translate_newlines t)).
  { induction n as [|n IH]; intros [|c r] Hlen;
      try constructor; simpl in Hlen; try lia.
    rewrite translate_newlines_cons.
    destruct (N.eqb_spec c 13) as [->|Hc].
    - destruct r as [|d r'].
      + apply un_cr; [discriminate|constructor].
      + destruct (N.eqb_spec d 10) as [->|Hd].
        * apply un_crlf. apply IH. simpl in Hlen. lia.
        * apply un_cr; [intros r0 [= E _]; contradiction|].
          apply IH. lia.
    - apply un_other; [exact Hc|]. apply IH. lia. }
  now apply H with (List.length t).
Qed.

Lemma universal_newlines_unique (t a : str) :
  universal_newlines t a -> forall b, universal_newlines t b -> a = b.
Proof.
  induction 1 as [|r r' _ IH|r r' Hr _ IH|c r r' Hc _ IH]; intros b Hb.
  - now inversion Hb.
  - inversion Hb as [|r1 r1' H1|r1 r1' Hn H1|c1 r1 r1' Hc1 H1]; subst.
    + f_equal. now apply IH.
    + exfalso. now apply (Hn r).
    + contradiction.
  - inversion Hb as [|r1 r1' H1|r1 r1' Hn H1|c1 r1 r1' Hc1 H1]; subst.
    + exfalso. now apply (Hr r1).
    + f_equal. now apply IH.
    + contradiction.
  - inversion Hb as [|r1 r1' H1|r1 r1' Hn H1|c1 r1 r1' Hc1 H1]; subst;
      try contradiction.
    f_equal. now apply IH.
Qed.

Lemma universal_newlines_no_cr (t a : str) :
  universal_newlines t a -> ~ In 13%N a.
Proof.
  induction 1 as [|r r' _ IH|r r' Hr _ IH|c r r' Hc _ IH]; simpl.
  - tauto.
  - intros [E|E]; [discriminate|contradiction].
  - intros [E|E]; [discriminate|contradiction].
  - intros [E|E]; [now apply Hc|contradiction].
Qed.

Lemma translate_newlines_fixed (t : str) :
  Py.translate_newlines t = t <-> ~ In 13%N t.
Proof.
  split.
  - intros E. rewrite <- E.
    apply universal_newlines_no_cr with t. apply translate_is_universal.
  - apply translate_newlines_without_cr.
Qed.

(** C3 (amended). For a script file that can be read and whose bytes
    are valid UTF-8, the viewer returns the decoded text with every
    [\r\n] and every lone [\r] read as [\n], and nothing else changed
    (the relation [universal_newlines], which leaves one text only). The
    text returned holds no carriage return, and it is the decoding of the
    bytes on disk itself exactly when that decoding holds none. *)
Theorem view_returns_text_with_universal_newlines
        (ruta_script : str) (w : world) (bs : list byte) (t : str) :
  read_bytes w (path_abspath rt ruta_script) = inr bs ->
  Utf8.decode_bytes bs = Some t ->
  exists texto,
    fst (mostrar_codigo rt ruta_script w) = Return (Some texto)
    /\ texto = Py.translate_newlines t
    /\ universal_newlines t texto
    /\ (forall otro, universal_newlines t otro -> otro = texto)
    /\ ~ In 13%N texto
    /\ (texto = t <-> ~ In 13%N t)
    /\ (fst (mostrar_codigo rt ruta_script w) = Return (Some t)
        <-> ~ In 13%N t).
Proof.
  intros Hr Hd. rewrite (mostrar_codigo_ok _ _ Hr Hd). simpl fst.
  exists (Py.translate_newlines t).
  pose proof (translate_is_universal t) as Hu.
  split; [reflexivity|]. split; [reflexivity|]. split; [exact Hu|].
  split; [|split; [|split]].
  - intros otro Ho. symmetry. now apply universal_newlines_unique with t.
  - now apply universal_newlines_no_cr with t.
  - apply translate_newlines_fixed.
  - rewrite <- translate_newlines_fixed. split.
    + now intros [= E].
    + now intros ->.
Qed.

(** C4. When the read of a script fails (the file cannot be opened or
    read, or its bytes are not UTF-8), the viewer prints one warning,
    writes exactly one record to the log, of level ERROR and holding
    the path, and returns [None]; nothing is raised. *)
Theorem view_failure_is_reported_not_raised
        (ruta_script : str) (w : world) (e : exn) :
  read_error w (path_abspath rt ruta_script) = Some e ->
  exists w' aviso msg,
    mostrar_codigo rt ruta_script w = (Return None, w')
    /\ stdout w' = stdout w ++ [aviso] /\ is_warning aviso = true
    /\ logfile w' = logfile w ++ [(ERROR, msg)]
    /\ (exists pre post, msg = pre ++ ruta_script ++ post)
    /\ stdin w' = stdin w /\ processes w' = processes w.
Proof.
  intros H. rewrite (mostrar_codigo_error _ _ H).
  eexists _, _, _. split; [reflexivity|].
  repeat split; try reflexivity.
  eexists _, _. reflexivity.
Qed.

(** C6. The launcher starts [cmd /k python <script>] when [os.name] is
    [nt] and [xterm -hold -e python3 <script>] otherwise. When the
    child starts, the list of processes has grown by that command line
    and the log by one record of level INFO, the console untouched; when
    [Popen] raises, no process is added, the log has grown by one record
    of level ERROR with the error and the console by one warning. In
    both cases the call returns normally and reads no input. *)
Theorem launcher_spawns_terminal_and_never_raises
        (ruta_script : str) (w : world) :
  exists argv,
    (os_name rt = lit "nt" ->
     argv = [lit "cmd"; lit "/k"; lit "python"; ruta_script])
    /\ (os_name rt <> lit "nt" ->
        argv = [lit "xterm"; lit "-hold"; lit "-e"; lit "python3";
                ruta_script])
    /\ (spawn_error w argv = None ->
        ejecutar_codigo rt ruta_script w
        = (Return tt,
           record [(INFO, lit "Script ejecutado: " ++ ruta_script)]
                  (spawn argv w))
        /\ processes (snd (ejecutar_codigo rt ruta_script w))
           = processes w ++ [argv]
        /\ logfile (snd (ejecutar_codigo rt ruta_script w))
           = logfile w ++ [(INFO, lit "Script ejecutado: " ++ ruta_script)]
        /\ stdout (snd (ejecutar_codigo rt ruta_script w)) = stdout w)
    /\ (forall e, spawn_error w argv = Some e ->
        ejecutar_codigo rt ruta_script w
        = (Return tt,
           emit [Print (nl ++ lit "⚠️ Error al ejecutar: " ++ exc_str rt e)]
                (record [(ERROR, lit "Error al ejecutar " ++ ruta_script
                                 ++ lit ": " ++ exc_str rt e)] w))
        /\ processes (snd (ejecutar_codigo rt ruta_script w)) = processes w
        /\ logfile (snd (ejecutar_codigo rt ruta_script w))
           = logfile w ++ [(ERROR, lit "Error al ejecutar " ++ ruta_script
                                   ++ lit ": " ++ exc_str rt e)]
        /\ stdout (snd (ejecutar_codigo rt ruta_script w))
           = stdout w
             ++ [Print (nl ++ lit "⚠️ Error al ejecutar: " ++ exc_str rt e)]
        /\ is_warning
             (Print (nl ++ lit "⚠️ Error al ejecutar: " ++ exc_str rt e))
           = true)
    /\ fst (ejecutar_codigo rt ruta_script w) = Return tt
    /\ stdin (snd (ejecutar_codigo rt ruta_script w)) = stdin w
    /\ scandir (snd (ejecutar_codigo rt ruta_script w)) = scandir w
    /\ read_bytes (snd (ejecutar_codigo rt ruta_script w)) = read_bytes w.
Proof.
  unfold ejecutar_codigo, try_except, bind, Popen, logging, print.
  destruct (str_eqb (os_name rt) (lit "nt")) eqn:Hos.
  - apply str_eqb_eq in Hos.
    exists [lit "cmd"; lit "/k"; lit "python"; ruta_script].
    split; [reflexivity|]. split; [congruence|].
    destruct (spawn_error w _) as [e|];
      (split; [intros H; try discriminate H; repeat split; reflexivity|]);
      (split; [intros e' H; try discriminate H; try injection H as <-;
               repeat split; reflexivity|]);
      repeat split; reflexivity.
  - apply str_eqb_neq in Hos.
    exists [lit "xterm"; lit "-hold"; lit "-e"; lit "python3"; ruta_script].
    split; [congruence|]. split; [reflexivity|].
    destruct (spawn_error w _) as [e|];
      (split; [intros H; try discriminate H; repeat split; reflexivity|]);
      (split; [intros e' H; try discriminate H; try injection H as <-;
               repeat split; reflexivity|]);
      repeat split; reflexivity.
Qed.

End Leaves.

(* ------------------------------------------------------------------ *)
(** ** One iteration of each menu *)

Lemma for_each_print {A} (g : A -> str) (l : list A) (w : world) :
  for_each l (fun x => print (g x)) w
  = (Return tt, emit (map (fun x => Print (g x)) l) w).
Proof.
  revert w; induction l as [|x l IH]; intros w; simpl.
  - unfold ret. now rewrite emit_nil.
  - unfold bind, print. rewrite IH, emit_emit. reflexivity.
Qed.

Lemma print_numbered_emit (l : list str) (w : world) :
  print_numbered l w = (Return tt, emit (numbered l) w).
Proof. unfold print_numbered, numbered. apply for_each_print. Qed.

Lemma stdin_emit (a : list event) (w : world) : stdin (emit a w) = stdin w.
Proof. reflexivity. Qed.

Lemma stdin_record (r : list (level * str)) (w : world) :
  stdin (record r w) = stdin w.
Proof. reflexivity. Qed.

Lemma while_true_S (fuel : nat) (body : nat -> M ctl) (w : world) :
  while_true (S fuel) body w
  = match body fuel w with
    | (Return Break, w') => (Return tt, w')
    | (Return Continue, w') => while_true fuel body w'
    | (Raise e, w') => (Raise e, w')
    | (OutOfFuel, w') => (OutOfFuel, w')
    end.
Proof.
  simpl. unfold bind. destruct (body fuel w) as [[[]|e|] w']; reflexivity.
Qed.

(** Unfolds the operations of an iteration once the loop itself is set
    aside. *)
Ltac run_ops :=
  unfold obtener_scripts, obtener_subcarpetas, os_scandir;
  unfold bind, print, input, logging, ret, raise; cbv beta iota.

Ltac same_world :=
  repeat rewrite emit_emit; simpl; repeat rewrite <- app_assoc; reflexivity.

Section Iterations.

Variable rt : runtime.

Lemma scripts_iteration fuel p w entries linea rest :
  scandir w p = inr entries ->
  stdin w = linea :: rest ->
  mostrar_menu_scripts rt (S fuel) p w
  = let scripts := scripts_de entries in
    let w1 := set_stdin rest (emit (render_script scripts) w) in
    if str_eqb (Py.strip linea) (lit "0") then (Return tt, w1)
    else
      match try_except (elegir_script rt p scripts (Py.strip linea))
                       is_ValueError
                       (fun _ => print (nl ++ lit "⚠️ Por favor, ingrese un número válido")) w1 with
      | (Return _, w2) => mostrar_menu_scripts rt fuel p w2
      | (Raise e, w2) => (Raise e, w2)
      | (OutOfFuel, w2) => (OutOfFuel, w2)
      end.
Proof.
  intros Hs Hi.
  unfold mostrar_menu_scripts. rewrite while_true_S.
  set (again := while_true fuel _).
  run_ops. rewrite Hs. cbv beta iota. rewrite print_numbered_emit. cbv beta iota.
  rewrite !stdin_emit, Hi. cbv beta iota.
  fold (scripts_de entries).
  replace (set_stdin rest _)
    with (set_stdin rest (emit (render_script (scripts_de entries)) w))
    by (unfold render_script, bar; f_equal; same_world).
  destruct (str_eqb (Py.strip linea) (lit "0")); [reflexivity|].
  cbv beta zeta.
  destruct (try_except _ _ _ _) as [[|e|] w2]; reflexivity.
Qed.

Lemma submenu_iteration fuel p w entries linea rest :
  scandir w p = inr entries ->
  stdin w = linea :: rest ->
  mostrar_submenu rt (S fuel) p w
  = let subcarpetas := subcarpetas_de entries in
    let w1 := set_stdin rest (emit (render_topic subcarpetas) w) in
    if str_eqb (Py.strip linea) (lit "0") then (Return tt, w1)
    else
      match try_except (elegir_tema rt fuel p subcarpetas (Py.strip linea))
                       is_ValueError
                       (fun _ => print (nl ++ lit "⚠️ Por favor, ingrese un número válido")) w1 with
      | (Return _, w2) => mostrar_submenu rt fuel p w2
      | (Raise e, w2) => (Raise e, w2)
      | (OutOfFuel, w2) => (OutOfFuel, w2)
      end.
Proof.
  intros Hs Hi.
  unfold mostrar_submenu. rewrite while_true_S.
  set (again := while_true fuel _).
  run_ops. rewrite Hs. cbv beta iota. rewrite print_numbered_emit. cbv beta iota.
  rewrite !stdin_emit, Hi. cbv beta iota.
  fold (subcarpetas_de entries).
  replace (set_stdin rest _)
    with (set_stdin rest (emit (render_topic (subcarpetas_de entries)) w))
    by (unfold render_topic, bar; f_equal; same_world).
  destruct (str_eqb (Py.strip linea) (lit "0")); [reflexivity|].
  cbv beta zeta.
  destruct (try_except _ _ _ _) as [[|e|] w2]; reflexivity.
Qed.

Lemma submenu_listing_error fuel p w e :
  scandir w p = inl e ->
  mostrar_submenu rt (S fuel) p w = (Raise e, w).
Proof.
  intros Hs. unfold mostrar_submenu. rewrite while_true_S.
  set (again := while_true fuel _).
  run_ops. now rewrite Hs.
Qed.

Lemma scripts_listing_error fuel p w e :
  scandir w p = inl e ->
  mostrar_menu_scripts rt (S fuel) p w = (Raise e, w).
Proof.
  intros Hs. unfold mostrar_menu_scripts. rewrite while_true_S.
  set (again := while_true fuel _).
  run_ops. now rewrite Hs.
Qed.

Variable self : DashboardPOO.

Lemma main_iteration fuel w linea rest :
  stdin w = linea :: rest ->
  mostrar_menu_principal rt self (S fuel) w
  = let w1 := set_stdin rest (emit (render_main self) w) in
    if str_eqb (Py.strip linea) (lit "0") then
      (Return tt,
       record [(INFO, lit "Sesión finalizada")]
              (emit [Print (nl ++ lit "👋 ¡Hasta pronto!")] w1))
    else
      match lookup (Py.strip linea) (unidades self) with
      | Some unidad =>
        match mostrar_submenu rt fuel
                              (path_join rt (ruta_base self) unidad) w1 with
        | (Return _, w2) => mostrar_menu_principal rt self fuel w2
        | (Raise e, w2) => (Raise e, w2)
        | (OutOfFuel, w2) => (OutOfFuel, w2)
        end
      | None =>
        mostrar_menu_principal rt self fuel
          (record [(WARNING, lit "Opción inválida seleccionada: "
                             ++ Py.strip linea)]
                  (emit [Print (nl ++ lit "⚠️ Opción no válida")] w1))
      end.
Proof.
  intros Hi.
  unfold mostrar_menu_principal. rewrite while_true_S.
  set (again := while_true fuel _).
  unfold bind at 1 2 3.
  unfold print at 1 2. cbv beta iota.
  rewrite for_each_print. run_ops.
  rewrite !stdin_emit, Hi. cbv beta iota.
  replace (set_stdin rest _)
    with (set_stdin rest (emit (render_main self) w))
    by (unfold render_main, bar; f_equal; same_world).
  destruct (str_eqb (Py.strip linea) (lit "0")); [reflexivity|].
  destruct (lookup (Py.strip linea) (unidades self)) as [unidad|].
  - destruct (mostrar_submenu rt fuel _ _) as [[|e|] w2]; reflexivity.
  - reflexivity.
Qed.

End Iterations.

(* ------------------------------------------------------------------ *)
(** ** The controller *)




Lemma in_range (z : Z) (n : nat) :
  (1 <= z <= Z.of_nat n)%Z ->
  ((0 <=? z - 1)%Z && (z - 1 <? Z.of_nat n)%Z) = true.
Proof.
  intros H. apply andb_true_iff. split; [apply Z.leb_le|apply Z.ltb_lt]; lia.
Qed.

Lemma int_zero (nd : N -> option N) : Py.int nd (lit "0") = Some 0%Z.
Proof. reflexivity. Qed.

Section Controller.

Variable rt : runtime.
Variable self : DashboardPOO.






(** C8. The choice [0] at TOPIC ends the loop of the topic menu
    normally: what follows the call runs next, which in the main menu
    is its next iteration and so its render. Nothing is written to the
    log and the disk is as before; only the menu and the consumed line
    tell the worlds apart. *)
Theorem back_from_topic_returns_to_main
        (fuel : nat) (p : str) (w : world) (entries : list DirEntry.t)
        (linea : str) (rest : list str) :
  scandir w p = inr entries ->
  stdin w = linea :: rest ->
  Py.strip linea = lit "0" ->
  let w' := set_stdin rest (emit (render_topic (subcarpetas_de entries)) w) in
  run rt self (S fuel) (TOPIC p) w = (Return tt, w')
  /\ logfile w' = logfile w
  /\ scandir w' = scandir w /\ read_bytes w' = read_bytes w
  /\ processes w' = processes w
  /\ (forall tecla unidad,
         Py.strip tecla <> lit "0" ->
         lookup (Py.strip tecla) (unidades self) = Some unidad ->
         p = path_join rt (ruta_base self) unidad ->
         run rt self (S (S fuel)) MAIN (set_stdin (tecla :: linea :: rest) w)
         = run rt self (S fuel) MAIN
               (set_stdin rest
                  (emit (render_main self
                         ++ render_topic (subcarpetas_de entries)) w))).
Proof.
  intros Hs Hi H0 w'. unfold run.
  split.
  - rewrite submenu_iteration with (1 := Hs) (2 := Hi). cbv zeta.
    now rewrite H0, str_eqb_refl.
  - repeat split.
    intros tecla unidad Ht Hk ->.
    rewrite main_iteration with (linea := tecla) (rest := linea :: rest)
      by reflexivity.
    cbv zeta. apply str_eqb_neq in Ht. rewrite Ht, Hk.
    rewrite submenu_iteration with (entries := entries) (linea := linea)
                                   (rest := rest)
      by (trivial; reflexivity).
    cbv zeta. rewrite H0, str_eqb_refl.
    f_equal. unfold set_stdin, emit; simpl. now rewrite <- app_assoc.
Qed.

(** C1 (amended). A key of the catalog entered at MAIN makes the
    controller run the topic menu on the base path joined with the
    folder of that entry, and then go on with the main menu. When that
    directory cannot be listed, the error of the listing is raised out
    of the main menu, which ends the program; when it can, the topic
    menu is rendered and read without an exception, and the choice [0]
    there leads back to the main menu. *)
Theorem catalog_key_enters_topic
        (fuel : nat) (w : world) (linea : str) (rest : list str)
        (unidad : str) :
  stdin w = linea :: rest ->
  Py.strip linea <> lit "0" ->
  lookup (Py.strip linea) (unidades self) = Some unidad ->
  let p := path_join rt (ruta_base self) unidad in
  let w1 := set_stdin rest (emit (render_main self) w) in
  run rt self (S fuel) MAIN w
    = (run rt self fuel (TOPIC p) ;;; run rt self fuel MAIN) w1
  /\ (forall e, scandir w p = inl e ->
        run rt self (S (S fuel)) MAIN w = (Raise e, w1))
  /\ (forall entries l2 rest2,
        scandir w p = inr entries ->
        rest = l2 :: rest2 ->
        Py.strip l2 = lit "0" ->
        run rt self (S (S fuel)) MAIN w
        = run rt self (S fuel) MAIN
              (set_stdin rest2
                 (emit (render_topic (subcarpetas_de entries)) w1))).
Proof.
  intros Hi H0 Hk p w1. unfold run.
  apply str_eqb_neq in H0.
  split; [|split].
  - rewrite main_iteration with (1 := Hi). cbv zeta. rewrite H0, Hk.
    unfold bind. fold p. fold w1.
    destruct (mostrar_submenu rt fuel p w1) as [[|e|] w2]; reflexivity.
  - intros e Hs.
    rewrite main_iteration with (1 := Hi). cbv zeta. rewrite H0, Hk.
    fold p. fold w1.
    now rewrite submenu_listing_error with (e := e).
  - intros entries l2 rest2 Hs -> H2.
    rewrite main_iteration with (1 := Hi). cbv zeta. rewrite H0, Hk.
    fold p. fold w1.
    rewrite submenu_iteration with (entries := entries) (linea := l2)
                                   (rest := rest2)
      by (trivial; reflexivity).
    cbv zeta. now rewrite H2, str_eqb_refl.
Qed.


Lemma chosen_is_not_zero (eleccion : str) (z : Z) :
  Py.int (nd_value rt) eleccion = Some z -> (1 <= z)%Z ->
  str_eqb eleccion (lit "0") = false.
Proof.
  intros Hz H1. apply str_eqb_neq. intros ->.
  rewrite int_zero in Hz. injection Hz as <-. lia.
Qed.

(** The replies that count as yes: [s], [S], and the long s (U+017F),
    whose upper case is [S] as well. *)
Lemma upper_is_S (respuesta : str) :
  Py.upper respuesta = lit "S"
  <-> respuesta = lit "s" \/ respuesta = lit "S" \/ respuesta = [383%N].
Proof.
  change (lit "S") with [83%N]. change (lit "s") with [115%N].
  unfold Py.upper. split.
  - destruct respuesta as [|c [|d r]]; try discriminate.
    intros [= H]. unfold Py.upper1, Utf8.within in H.
    destruct (N.leb_spec 97 c); destruct (N.leb_spec c 122); simpl in H.
    + left. f_equal. lia.
    + destruct (N.eqb_spec c 305); [discriminate|].
      destruct (N.eqb_spec c 383); [right; right; now subst|lia].
    + right. left. destruct (N.eqb_spec c 305); [discriminate|].
      destruct (N.eqb_spec c 383); [lia|now subst].
    + lia.
  - intros [->|[->| ->]]; reflexivity.
Qed.



End Controller.

(* ------------------------------------------------------------------ *)
(** ** Fuel

    Every iteration of a menu reads a line, so a run with more fuel than
    there are lines left never stops for lack of fuel: it returns or it
    raises (at the latest [EOFError] when the input ends). *)

Lemma settled_ret {A} (a : A) (w : world) : settled w (ret a w).
Proof. split; [discriminate|reflexivity]. Qed.

Lemma settled_raise {A} (e : exn) (w : world) : settled w (@raise A e w).
Proof. split; [discriminate|reflexivity]. Qed.

Lemma settled_print (s : str) (w : world) : settled w (print s w).
Proof. split; [discriminate|reflexivity]. Qed.

Lemma settled_logging (lv : level) (s : str) (w : world) :
  settled w (logging lv s w).
Proof. split; [discriminate|reflexivity]. Qed.

Lemma settled_input (prompt : str) (w : world) : settled w (input prompt w).
Proof.
  unfold settled, input. destruct (stdin w) as [|l rest] eqn:H; simpl.
  - split; [discriminate|]. rewrite H. simpl. lia.
  - split; [discriminate|]. lia.
Qed.

Lemma settled_bind {A B} (m : M A) (k : A -> M B) (w : world) :
  settled w (m w) ->
  (forall a w1, settled w1 (k a w1)) ->
  settled w (bind m k w).
Proof.
  unfold settled, bind. intros [Hm Hle] Hk.
  destruct (m w) as [[a|e|] w1]; simpl in *.
  - destruct (Hk a w1) as [H1 H2]. split; [exact H1|lia].
  - split; [discriminate|exact Hle].
  - congruence.
Qed.

Lemma settled_try_except {A} (body : M A) catches handler (w : world) :
  settled w (body w) ->
  (forall e w1, settled w1 (handler e w1)) ->
  settled w (try_except body catches handler w).
Proof.
  unfold settled, try_except. intros [Hm Hle] Hk.
  destruct (body w) as [[a|e|] w1]; simpl in *.
  - split; [discriminate|exact Hle].
  - destruct (catches e).
    + destruct (Hk e w1) as [H1 H2]. split; [exact H1|lia].
    + split; [discriminate|exact Hle].
  - congruence.
Qed.

Lemma settled_Popen (argv : list str) (w : world) : settled w (Popen argv w).
Proof.
  unfold settled, Popen.
  destruct (spawn_error w argv); simpl; split; (discriminate || lia).
Qed.

Lemma settled_open_read (path : str) (w : world) :
  settled w (open_read path w).
Proof.
  unfold settled, open_read.
  destruct (read_bytes w path) as [e|bs]; simpl; [split; (discriminate || lia)|].
  destruct (Utf8.decode_bytes bs); simpl; split; (discriminate || lia).
Qed.

Create HintDb settled.
#[local] Hint Resolve settled_ret settled_raise settled_print settled_logging
  settled_input settled_Popen settled_open_read : settled.

Ltac settle :=
  repeat first
    [ apply settled_bind; [|intros ? ?]
    | apply settled_try_except; [|intros ? ?]
    | solve [auto with settled]
    | match goal with
      | |- settled _ ((if ?b then _ else _) _) => destruct b
      | |- settled _ (match ?x with Some _ => _ | None => _ end _) =>
        destruct x
      end ].

Section Fuel.

Variable rt : runtime.

Lemma settled_mostrar_codigo (ruta_script : str) (w : world) :
  settled w (mostrar_codigo rt ruta_script w).
Proof.
  unfold mostrar_codigo. settle.
Qed.

Lemma settled_ejecutar_codigo (ruta_script : str) (w : world) :
  settled w (ejecutar_codigo rt ruta_script w).
Proof.
  unfold ejecutar_codigo. settle.
Qed.

Lemma settled_elegir_script p scripts eleccion (w : world) :
  settled w (elegir_script rt p scripts eleccion w).
Proof.
  unfold elegir_script.
  destruct (Py.int _ _) as [z|]; [|apply settled_raise].
  cbv zeta. settle;
    first [apply settled_mostrar_codigo | apply settled_ejecutar_codigo].
Qed.

Lemma scripts_eof fuel p w entries :
  scandir w p = inr entries ->
  stdin w = [] ->
  mostrar_menu_scripts rt (S fuel) p w
  = (Raise EOFError, emit (render_script (scripts_de entries)) w).
Proof.
  intros Hs Hi.
  unfold mostrar_menu_scripts. rewrite while_true_S.
  set (again := while_true fuel _).
  run_ops. rewrite Hs. cbv beta iota. rewrite print_numbered_emit. cbv beta iota.
  rewrite !stdin_emit, Hi. cbv beta iota.
  fold (scripts_de entries).
  f_equal. unfold render_script, bar. same_world.
Qed.

Lemma submenu_eof fuel p w entries :
  scandir w p = inr entries ->
  stdin w = [] ->
  mostrar_submenu rt (S fuel) p w
  = (Raise EOFError, emit (render_topic (subcarpetas_de entries)) w).
Proof.
  intros Hs Hi.
  unfold mostrar_submenu. rewrite while_true_S.
  set (again := while_true fuel _).
  run_ops. rewrite Hs. cbv beta iota. rewrite print_numbered_emit. cbv beta iota.
  rewrite !stdin_emit, Hi. cbv beta iota.
  fold (subcarpetas_de entries).
  f_equal. unfold render_topic, bar. same_world.
Qed.

Lemma main_eof self fuel w :
  stdin w = [] ->
  mostrar_menu_principal rt self (S fuel) w
  = (Raise EOFError, emit (render_main self) w).
Proof.
  intros Hi.
  unfold mostrar_menu_principal. rewrite while_true_S.
  set (again := while_true fuel _).
  unfold bind at 1 2 3.
  unfold print at 1 2. cbv beta iota.
  rewrite for_each_print. run_ops.
  rewrite !stdin_emit, Hi. cbv beta iota.
  f_equal. unfold render_main, bar. same_world.
Qed.

Lemma scripts_settled fuel : forall p w,
  List.length (stdin w) < fuel ->
  settled w (mostrar_menu_scripts rt fuel p w).
Proof.
  induction fuel as [|fuel IH]; intros p w Hlt; [lia|].
  destruct (scandir w p) as [e|entries] eqn:Hs.
  - rewrite scripts_listing_error with (e := e) by exact Hs.
    apply (settled_raise (A := unit)).
  - destruct (stdin w) as [|linea rest] eqn:Hi.
    + rewrite scripts_eof with (entries := entries) by assumption.
      split; [discriminate|]. simpl. rewrite Hi. reflexivity.
    + rewrite scripts_iteration with (1 := Hs) (2 := Hi). cbv zeta.
      destruct (str_eqb _ _).
      * split; [discriminate|]. simpl. rewrite Hi. simpl. lia.
      * set (w1 := set_stdin rest _).
        assert (H1 : settled w1
                  (try_except
                     (elegir_script rt p (scripts_de entries) (Py.strip linea))
                     is_ValueError
                     (fun _ => print (nl ++ lit "⚠️ Por favor, ingrese un número válido"))
                     w1))
          by (apply settled_try_except;
              [apply settled_elegir_script | intros; apply settled_print]).
        destruct H1 as [Hne Hle].
        destruct (try_except _ _ _ w1) as [[[]|e|] w2]; simpl in Hne, Hle.
        -- destruct (IH p w2) as [H2 H3]; [simpl in Hlt; lia|].
           split; [exact H2|]. rewrite Hi. simpl. lia.
        -- split; [discriminate|]. rewrite Hi. simpl. lia.
        -- congruence.
Qed.

Lemma settled_elegir_tema fuel p subcarpetas eleccion (w : world) :
  List.length (stdin w) < fuel ->
  settled w (elegir_tema rt fuel p subcarpetas eleccion w).
Proof.
  intros Hlt. unfold elegir_tema.
  destruct (Py.int _ _) as [z|]; [|apply settled_raise].
  cbv zeta. destruct (_ && _); [|apply settled_print].
  now apply scripts_settled.
Qed.

Lemma submenu_settled fuel : forall p w,
  List.length (stdin w) < fuel ->
  settled w (mostrar_submenu rt fuel p w).
Proof.
  induction fuel as [|fuel IH]; intros p w Hlt; [lia|].
  destruct (scandir w p) as [e|entries] eqn:Hs.
  - rewrite submenu_listing_error with (e := e) by exact Hs.
    apply (settled_raise (A := unit)).
  - destruct (stdin w) as [|linea rest] eqn:Hi.
    + rewrite submenu_eof with (entries := entries) by assumption.
      split; [discriminate|]. simpl. rewrite Hi. reflexivity.
    + rewrite submenu_iteration with (1 := Hs) (2 := Hi). cbv zeta.
      destruct (str_eqb _ _).
      * split; [discriminate|]. simpl. rewrite Hi. simpl. lia.
      * set (w1 := set_stdin rest _).
        assert (H1 : settled w1
                  (try_except
                     (elegir_tema rt fuel p (subcarpetas_de entries)
                                  (Py.strip linea))
                     is_ValueError
                     (fun _ => print (nl ++ lit "⚠️ Por favor, ingrese un número válido"))
                     w1))
          by (apply settled_try_except;
              [apply settled_elegir_tema; simpl in *; lia
              | intros; apply settled_print]).
        destruct H1 as [Hne Hle].
        destruct (try_except _ _ _ w1) as [[[]|e|] w2]; simpl in Hne, Hle.
        -- destruct (IH p w2) as [H2 H3]; [simpl in Hlt; lia|].
           split; [exact H2|]. rewrite Hi. simpl. lia.
        -- split; [discriminate|]. rewrite Hi. simpl. lia.
        -- congruence.
Qed.

Lemma main_settled self fuel : forall w,
  List.length (stdin w) < fuel ->
  settled w (mostrar_menu_principal rt self fuel w).
Proof.
  induction fuel as [|fuel IH]; intros w Hlt; [lia|].
  destruct (stdin w) as [|linea rest] eqn:Hi.
  - rewrite main_eof by assumption.
    split; [discriminate|]. simpl. rewrite Hi. reflexivity.
  - rewrite main_iteration with (1 := Hi). cbv zeta.
    destruct (str_eqb _ _).
    + split; [discriminate|]. simpl. rewrite Hi. simpl. lia.
    + destruct (lookup _ _) as [unidad|].
      * set (w1 := set_stdin rest _).
        destruct (submenu_settled (fuel := fuel)
                    (path_join rt (ruta_base self) unidad) w1)
          as [Hne Hle]; [simpl in *; lia|].
        destruct (mostrar_submenu rt fuel _ w1) as [[[]|e|] w2];
          simpl in Hne, Hle.
        -- destruct (IH w2) as [H2 H3]; [simpl in Hlt; lia|].
           split; [exact H2|]. rewrite Hi. simpl. lia.
        -- split; [discriminate|]. rewrite Hi. simpl. lia.
        -- congruence.
      * match goal with |- settled _ (_ _ _ _ ?w2) =>
          destruct (IH w2) as [H2 H3]; [simpl in *; lia|]
        end.
        split; [exact H2|]. rewrite Hi. simpl in *. lia.
Qed.

(** X10. Every menu terminates on a finite input: each iteration takes
    a line, so with more fuel than lines of input a run never stops for
    lack of fuel; it returns or it raises. *)
Theorem enough_fuel self (fuel : nat) (s : state) (w : world) :
  List.length (stdin w) < fuel ->
  fst (run rt self fuel s w) <> OutOfFuel.
Proof.
  intros Hlt. destruct s as [|p|p]; unfold run.
  - now apply main_settled.
  - now apply submenu_settled.
  - now apply scripts_settled.
Qed.

End Fuel.

(* ------------------------------------------------------------------ *)
(** ** What holds of every run

    A relation between the world before and the world after that is
    reflexive and transitive, holds of the elementary steps (writing to
    the console, writing to the log, taking a line of input) and of a
    launch that follows an affirmative reply for a listed script, holds
    of every run of every menu, however it ends. *)

Lemma ejecutar_codigo_cases (rt : runtime) (ruta_script : str) (w : world) :
  (spawn_error w (terminal_argv rt ruta_script) = None
   /\ ejecutar_codigo rt ruta_script w
      = (Return tt,
         record [(INFO, lit "Script ejecutado: " ++ ruta_script)]
                (spawn (terminal_argv rt ruta_script) w)))
  \/ (exists e,
        spawn_error w (terminal_argv rt ruta_script) = Some e
        /\ ejecutar_codigo rt ruta_script w
           = (Return tt,
              emit [Print (nl ++ lit "⚠️ Error al ejecutar: " ++ exc_str rt e)]
                   (record [(ERROR, lit "Error al ejecutar " ++ ruta_script
                                    ++ lit ": " ++ exc_str rt e)] w))).
Proof.
  unfold ejecutar_codigo, terminal_argv, try_except, bind, Popen, logging,
    print.
  destruct (str_eqb (os_name rt) (lit "nt"));
    destruct (spawn_error w _) as [e|] eqn:H;
    solve [left; split; reflexivity | right; exists e; split; reflexivity].
Qed.

Lemma mostrar_codigo_cases (rt : runtime) (ruta_script : str) (w : world) :
  (exists bs t,
      read_bytes w (path_abspath rt ruta_script) = inr bs
      /\ Utf8.decode_bytes bs = Some t
      /\ read_error w (path_abspath rt ruta_script) = None)
  \/ (exists e, read_error w (path_abspath rt ruta_script) = Some e).
Proof.
  unfold read_error.
  destruct (read_bytes w _) as [e|bs]; [right; now exists e|].
  destruct (Utf8.decode_bytes bs) as [t|] eqn:Hd.
  - left. now exists bs, t.
  - right. eexists. reflexivity.
Qed.

Section Runs.

Variable rt : runtime.
Variable R : world -> world -> Prop.

Hypothesis R_refl : forall w, R w w.
Hypothesis R_trans : forall w1 w2 w3, R w1 w2 -> R w2 w3 -> R w1 w3.
Hypothesis R_emit : forall evs w, R w (emit evs w).
Hypothesis R_record : forall recs w, R w (record recs w).
Hypothesis R_read :
  forall l rest w, stdin w = l :: rest -> R w (set_stdin rest w).
Hypothesis R_launch :
  forall p entries name l rest recs w,
    scandir w p = inr entries ->
    In name (scripts_de entries) ->
    logfile w
      = recs ++ [(INFO, lit "Archivo visualizado: " ++ path_join rt p name)] ->
    stdin w = l :: rest ->
    Py.upper l = lit "S" ->
    R w (snd (ejecutar_codigo rt (path_join rt p name)
                              (set_stdin rest (emit [prompt_run] w)))).

Lemma R_bind {A B} (m : M A) (k : A -> M B) (w : world) :
  R w (snd (m w)) ->
  (forall a w1, m w = (Return a, w1) -> R w1 (snd (k a w1))) ->
  R w (snd (bind m k w)).
Proof.
  unfold bind. intros Hm Hk.
  destruct (m w) as [[a|e|] w1]; simpl in *; trivial.
  apply R_trans with w1; [exact Hm|]. now apply Hk.
Qed.

Lemma R_try_except {A} (body : M A) catches handler (w : world) :
  R w (snd (body w)) ->
  (forall e w1, R w1 (snd (handler e w1))) ->
  R w (snd (try_except body catches handler w)).
Proof.
  unfold try_except. intros Hm Hk.
  destruct (body w) as [[a|e|] w1]; simpl in *; trivial.
  destruct (catches e); [|exact Hm].
  apply R_trans with w1; [exact Hm|apply Hk].
Qed.

Lemma R_print (s : str) (w : world) : R w (snd (print s w)).
Proof. apply R_emit. Qed.

Lemma R_logging (lv : level) (s : str) (w : world) :
  R w (snd (logging lv s w)).
Proof. apply R_record. Qed.

Lemma R_input (prompt : str) (w : world) : R w (snd (input prompt w)).
Proof.
  unfold input. destruct (stdin w) as [|l rest] eqn:H; simpl.
  - apply R_emit.
  - apply R_trans with (emit [Prompt prompt] w); [apply R_emit|].
    now apply R_read with l.
Qed.

Lemma R_for_each_print {A} (g : A -> str) (l : list A) (w : world) :
  R w (snd (for_each l (fun x => print (g x)) w)).
Proof. rewrite for_each_print. apply R_emit. Qed.

Lemma R_while_true (body : nat -> M ctl) :
  (forall f w, R w (snd (body f w))) ->
  forall fuel w, R w (snd (while_true fuel body w)).
Proof.
  intros Hb. induction fuel as [|fuel IH]; intros w; [apply R_refl|].
  rewrite while_true_S. specialize (Hb fuel w).
  destruct (body fuel w) as [[[]|e|] w1]; simpl in *; trivial.
  apply R_trans with w1; [exact Hb|apply IH].
Qed.

Lemma R_read_line (evs : list event) l rest (w : world) :
  stdin w = l :: rest -> R w (set_stdin rest (emit evs w)).
Proof.
  intros Hi. apply R_trans with (emit evs w); [apply R_emit|].
  now apply R_read with l.
Qed.

Lemma R_acknowledge (w : world) :
  R w (snd ((_ <- input (nl ++ lit "Presione Enter para continuar...") ;;
             ret tt) w)).
Proof. apply R_bind; [apply R_input|]. intros; apply R_refl. Qed.

Lemma R_elegir_script p entries eleccion (w : world) :
  scandir w p = inr entries ->
  R w (snd (elegir_script rt p (scripts_de entries) eleccion w)).
Proof.
  intros Hs. unfold elegir_script.
  destruct (Py.int _ _) as [z|]; [|apply R_refl].
  cbv zeta.
  destruct ((0 <=? z - 1)%Z && (z - 1 <? _)%Z) eqn:Hin; [|apply R_print].
  apply andb_true_iff in Hin as [H0 H1].
  apply Z.leb_le in H0. apply Z.ltb_lt in H1.
  set (name := nth (Z.to_nat (z - 1)) (scripts_de entries) []).
  assert (Hname : In name (scripts_de entries)) by (apply nth_In; lia).
  unfold bind at 1.
  destruct (mostrar_codigo_cases rt (path_join rt p name) w)
    as [[bs [t [Hr [Hd _]]]]|[e He]].
  - rewrite mostrar_codigo_ok with (bs := bs) (t := t) by assumption.
    set (w1 := record _ _).
    apply R_trans with w1;
      [eapply R_trans; [apply R_emit|apply R_record]|].
    apply R_bind; [|intros; apply R_acknowledge].
    destruct (truthy _); [|apply R_refl].
    unfold bind, input. destruct (stdin w1) as [|l rest] eqn:Hi; simpl.
    + apply R_emit.
    + destruct (str_eqb (Py.upper l) (lit "S")) eqn:Hyes.
      * apply str_eqb_eq in Hyes.
        apply R_launch with (entries := entries) (l := l) (recs := logfile w);
          trivial.
      * simpl. now apply R_read_line with l.
  - rewrite mostrar_codigo_error with (e := e) by assumption.
    set (w1 := emit _ _).
    apply R_trans with w1;
      [eapply R_trans; [apply R_record|apply R_emit]|].
    apply R_bind; [apply R_refl|intros; apply R_acknowledge].
Qed.

Lemma R_scripts (fuel : nat) : forall p w,
  R w (snd (mostrar_menu_scripts rt fuel p w)).
Proof.
  induction fuel as [|fuel IH]; intros p w; [apply R_refl|].
  destruct (scandir w p) as [e|entries] eqn:Hs.
  - rewrite scripts_listing_error with (e := e) by exact Hs. apply R_refl.
  - destruct (stdin w) as [|linea rest] eqn:Hi.
    + rewrite scripts_eof with (entries := entries) by assumption.
      apply R_emit.
    + rewrite scripts_iteration with (1 := Hs) (2 := Hi). cbv zeta.
      set (w1 := set_stdin rest _).
      assert (H1 : R w w1) by now apply R_read_line with linea.
      destruct (str_eqb _ _); [exact H1|].
      assert (H2 : R w1 (snd (try_except
                     (elegir_script rt p (scripts_de entries) (Py.strip linea))
                     is_ValueError
                     (fun _ => print (nl ++ lit "⚠️ Por favor, ingrese un número válido"))
                     w1)))
        by (apply R_try_except;
            [now apply R_elegir_script | intros; apply R_print]).
      destruct (try_except _ _ _ w1) as [[[]|e|] w2]; simpl in H2.
      * apply R_trans with w1; [exact H1|].
        apply R_trans with w2; [exact H2|apply IH].
      * now apply R_trans with w1.
      * now apply R_trans with w1.
Qed.

Lemma R_elegir_tema fuel p subcarpetas eleccion (w : world) :
  R w (snd (elegir_tema rt fuel p subcarpetas eleccion w)).
Proof.
  unfold elegir_tema.
  destruct (Py.int _ _) as [z|]; [|apply R_refl].
  cbv zeta. destruct (_ && _); [apply R_scripts|apply R_print].
Qed.

Lemma R_submenu (fuel : nat) : forall p w,
  R w (snd (mostrar_submenu rt fuel p w)).
Proof.
  induction fuel as [|fuel IH]; intros p w; [apply R_refl|].
  destruct (scandir w p) as [e|entries] eqn:Hs.
  - rewrite submenu_listing_error with (e := e) by exact Hs. apply R_refl.
  - destruct (stdin w) as [|linea rest] eqn:Hi.
    + rewrite submenu_eof with (entries := entries) by assumption.
      apply R_emit.
    + rewrite submenu_iteration with (1 := Hs) (2 := Hi). cbv zeta.
      set (w1 := set_stdin rest _).
      assert (H1 : R w w1) by now apply R_read_line with linea.
      destruct (str_eqb _ _); [exact H1|].
      assert (H2 : R w1 (snd (try_except
                     (elegir_tema rt fuel p (subcarpetas_de entries)
                                  (Py.strip linea))
                     is_ValueError
                     (fun _ => print (nl ++ lit "⚠️ Por favor, ingrese un número válido"))
                     w1)))
        by (apply R_try_except;
            [apply R_elegir_tema | intros; apply R_print]).
      destruct (try_except _ _ _ w1) as [[[]|e|] w2]; simpl in H2.
      * apply R_trans with w1; [exact H1|].
        apply R_trans with w2; [exact H2|apply IH].
      * now apply R_trans with w1.
      * now apply R_trans with w1.
Qed.

Lemma R_main self (fuel : nat) : forall w,
  R w (snd (mostrar_menu_principal rt self fuel w)).
Proof.
  induction fuel as [|fuel IH]; intros w; [apply R_refl|].
  destruct (stdin w) as [|linea rest] eqn:Hi.
  - rewrite main_eof by assumption. apply R_emit.
  - rewrite main_iteration with (1 := Hi). cbv zeta.
    set (w1 := set_stdin rest _).
    assert (H1 : R w w1) by now apply R_read_line with linea.
    destruct (str_eqb _ _).
    + apply R_trans with w1; [exact H1|]. simpl.
      eapply R_trans; [apply R_emit|apply R_record].
    + destruct (lookup _ _) as [unidad|].
      * pose proof (R_submenu fuel (path_join rt (ruta_base self) unidad) w1)
          as H2.
        destruct (mostrar_submenu rt fuel _ w1) as [[[]|e|] w2]; simpl in H2.
        -- apply R_trans with w1; [exact H1|].
           apply R_trans with w2; [exact H2|apply IH].
        -- now apply R_trans with w1.
        -- now apply R_trans with w1.
      * apply R_trans with w1; [exact H1|].
        eapply R_trans; [|apply IH].
        eapply R_trans; [apply R_emit|apply R_record].
Qed.

Lemma R_run self (fuel : nat) (s : state) (w : world) :
  R w (snd (run rt self fuel s w)).
Proof.
  destruct s; unfold run;
    [apply R_main | apply R_submenu | apply R_scripts].
Qed.

End Runs.

Lemma extends_refl (w : world) : extends w w.
Proof.
  unfold extends. repeat split; exists []; now rewrite ?app_nil_r.
Qed.

Lemma extends_trans (w1 w2 w3 : world) :
  extends w1 w2 -> extends w2 w3 -> extends w1 w3.
Proof.
  intros [Hs [Hr [Hp [[u Hu] [[o Ho] [[r Hl] [ps Hps]]]]]]]
         [Hs' [Hr' [Hp' [[u' Hu'] [[o' Ho'] [[r' Hl'] [ps' Hps']]]]]]].
  unfold extends. repeat split; try congruence.
  - exists (u ++ u'). now rewrite Hu, Hu', app_assoc.
  - exists (o ++ o'). now rewrite Ho', Ho, app_assoc.
  - exists (r ++ r'). now rewrite Hl', Hl, app_assoc.
  - exists (ps ++ ps'). now rewrite Hps', Hps, app_assoc.
Qed.

Lemma extends_emit (evs : list event) (w : world) : extends w (emit evs w).
Proof.
  unfold extends. simpl. repeat split;
    solve [exists []; now rewrite ?app_nil_r | now exists evs].
Qed.

Lemma extends_record (recs : list (level * str)) (w : world) :
  extends w (record recs w).
Proof.
  unfold extends. simpl. repeat split;
    solve [exists []; now rewrite ?app_nil_r | now exists recs].
Qed.

Lemma extends_spawn (argv : list str) (w : world) : extends w (spawn argv w).
Proof.
  unfold extends. simpl. repeat split;
    solve [exists []; now rewrite ?app_nil_r | now exists [argv]].
Qed.

Lemma extends_read l rest (w : world) :
  stdin w = l :: rest -> extends w (set_stdin rest w).
Proof.
  intros Hi. unfold extends. simpl. repeat split;
    solve [exists []; now rewrite ?app_nil_r | now exists [l]].
Qed.

Lemma extends_ejecutar_codigo (rt : runtime) (ruta_script : str) (w : world) :
  extends w (snd (ejecutar_codigo rt ruta_script w)).
Proof.
  destruct (ejecutar_codigo_cases rt ruta_script w) as [[_ ->]|[e [_ ->]]];
    simpl.
  - eapply extends_trans; [apply extends_spawn|apply extends_record].
  - eapply extends_trans; [apply extends_record|apply extends_emit].
Qed.

Lemma extends_launch (rt : runtime) ruta l rest (w : world) :
  stdin w = l :: rest ->
  extends w (snd (ejecutar_codigo rt ruta
                                  (set_stdin rest (emit [prompt_run] w)))).
Proof.
  intros Hi.
  eapply extends_trans; [|apply extends_ejecutar_codigo].
  eapply extends_trans; [apply extends_emit|].
  now apply extends_read with l.
Qed.

(** Growth of the world together with: no affirmative line to come, no
    process started. The two compose. *)
Lemma consent_trans (w1 w2 w3 : world) :
  (extends w1 w2
   /\ ((forall l, In l (stdin w1) -> Py.upper l <> lit "S") ->
       processes w2 = processes w1)) ->
  (extends w2 w3
   /\ ((forall l, In l (stdin w2) -> Py.upper l <> lit "S") ->
       processes w3 = processes w2)) ->
  extends w1 w3
  /\ ((forall l, In l (stdin w1) -> Py.upper l <> lit "S") ->
      processes w3 = processes w1).
Proof.
  intros [He H] [He' H']. split; [now apply extends_trans with w2|].
  intros Hno. rewrite H', H; trivial.
  intros l Hl. apply Hno.
  destruct He as [_ [_ [_ [[u Hu] _]]]]. rewrite Hu.
  apply in_or_app. now right.
Qed.

(** X2. No process is started without consent: when no line of the
    input still to come has [S] as its upper case, a run of any menu,
    however long and however it ends, starts no process. *)
Theorem nothing_is_launched_without_consent
        (rt : runtime) (self : DashboardPOO) (fuel : nat) (s : state)
        (w : world) :
  (forall l, In l (stdin w) -> Py.upper l <> lit "S") ->
  processes (snd (run rt self fuel s w)) = processes w.
Proof.
  revert w.
  assert (H : forall w,
             extends w (snd (run rt self fuel s w))
             /\ ((forall l, In l (stdin w) -> Py.upper l <> lit "S") ->
                 processes (snd (run rt self fuel s w)) = processes w)).
  { intros w.
    apply R_run with
      (R := fun w w' =>
              extends w w'
              /\ ((forall l, In l (stdin w) -> Py.upper l <> lit "S") ->
                  processes w' = processes w)).
    - intros w0. split; [apply extends_refl|reflexivity].
    - apply consent_trans.
    - intros evs w0. split; [apply extends_emit|reflexivity].
    - intros recs w0. split; [apply extends_record|reflexivity].
    - intros l rest w0 Hi. split; [now apply extends_read with l|reflexivity].
    - intros p entries name l rest recs w0 _ _ _ Hi Hyes.
      split; [now apply extends_launch with l|].
      intros Hno. exfalso. apply (Hno l); [|exact Hyes].
      rewrite Hi. now left. }
  intros w. apply H.
Qed.

Lemma runs_listed_script_same_disk (rt : runtime) (w w' : world) argv :
  scandir w' = scandir w ->
  runs_listed_script rt w' argv -> runs_listed_script rt w argv.
Proof.
  intros Hs [p [entries [name [H1 [H2 H3]]]]].
  exists p, entries, name. rewrite <- Hs. auto.
Qed.

(** X3. Whatever a run starts is a listed script: each process started
    by a run of any menu has the command line of the launcher for the
    join of a directory and the name of a regular file, ending with
    [.py], that the directory lists. *)
Theorem only_listed_scripts_are_launched
        (rt : runtime) (self : DashboardPOO) (fuel : nat) (s : state)
        (w : world) :
  exists ps,
    processes (snd (run rt self fuel s w)) = processes w ++ ps
    /\ Forall (runs_listed_script rt w) ps.
Proof.
  apply proj2 with (A := extends w (snd (run rt self fuel s w))).
  apply R_run with
    (R := fun w w' =>
            extends w w'
            /\ exists ps, processes w' = processes w ++ ps
                          /\ Forall (runs_listed_script rt w) ps).
  - intros w0. split; [apply extends_refl|].
    exists []. split; [now rewrite app_nil_r|constructor].
  - intros w1 w2 w3 [He [ps [Hp Hf]]] [He' [ps' [Hp' Hf']]].
    split; [now apply extends_trans with w2|].
    exists (ps ++ ps'). split; [now rewrite Hp', Hp, app_assoc|].
    apply Forall_app. split; [exact Hf|].
    eapply Forall_impl; [|exact Hf'].
    intros argv. apply runs_listed_script_same_disk. apply He.
  - intros evs w0. split; [apply extends_emit|].
    exists []. split; [now rewrite app_nil_r|constructor].
  - intros recs w0. split; [apply extends_record|].
    exists []. split; [now rewrite app_nil_r|constructor].
  - intros l rest w0 Hi. split; [now apply extends_read with l|].
    exists []. split; [now rewrite app_nil_r|constructor].
  - intros p entries name l rest recs w0 Hs Hin _ Hi _.
    split; [now apply extends_launch with l|].
    destruct (ejecutar_codigo_cases rt (path_join rt p name)
                (set_stdin rest (emit [prompt_run] w0)))
      as [[_ ->]|[e [_ ->]]]; simpl.
    + exists [terminal_argv rt (path_join rt p name)].
      split; [reflexivity|]. constructor; [|constructor].
      now exists p, entries, name.
    + exists []. split; [now rewrite app_nil_r|constructor].
Qed.

(** X4. Nothing is run that was not shown: for each process a run
    starts, the log holds the record of the view of its script and,
    right after it, the record of its launch. *)
Theorem every_launch_follows_its_view
        (rt : runtime) (self : DashboardPOO) (fuel : nat) (s : state)
        (w : world) :
  exists ps,
    processes (snd (run rt self fuel s w)) = processes w ++ ps
    /\ Forall (launched_after_view rt (logfile (snd (run rt self fuel s w))))
              ps.
Proof.
  apply proj2 with (A := extends w (snd (run rt self fuel s w))).
  apply R_run with
    (R := fun w w' =>
            extends w w'
            /\ exists ps, processes w' = processes w ++ ps
                          /\ Forall (launched_after_view rt (logfile w')) ps).
  - intros w0. split; [apply extends_refl|].
    exists []. split; [now rewrite app_nil_r|constructor].
  - intros w1 w2 w3 [He [ps [Hp Hf]]] [He' [ps' [Hp' Hf']]].
    split; [now apply extends_trans with w2|].
    exists (ps ++ ps'). split; [now rewrite Hp', Hp, app_assoc|].
    apply Forall_app. split; [|exact Hf'].
    eapply Forall_impl; [|exact Hf].
    intros argv [ruta [a [b [Ha Hl]]]].
    destruct He' as [_ [_ [_ [_ [_ [[recs Hr] _]]]]]].
    exists ruta, a, (b ++ recs). split; [exact Ha|].
    rewrite Hr, Hl, <- app_assoc. reflexivity.
  - intros evs w0. split; [apply extends_emit|].
    exists []. split; [now rewrite app_nil_r|constructor].
  - intros recs w0. split; [apply extends_record|].
    exists []. split; [now rewrite app_nil_r|constructor].
  - intros l rest w0 Hi. split; [now apply extends_read with l|].
    exists []. split; [now rewrite app_nil_r|constructor].
  - intros p entries name l rest recs w0 _ _ Hlog Hi _.
    split; [now apply extends_launch with l|].
    destruct (ejecutar_codigo_cases rt (path_join rt p name)
                (set_stdin rest (emit [prompt_run] w0)))
      as [[_ ->]|[e [_ ->]]]; simpl.
    + exists [terminal_argv rt (path_join rt p name)].
      split; [reflexivity|]. constructor; [|constructor].
      exists (path_join rt p name), recs, []. split; [reflexivity|].
      rewrite Hlog, <- app_assoc. reflexivity.
    + exists []. split; [now rewrite app_nil_r|constructor].
Qed.

Lemma submenu_takes_lines_in_order (rt : runtime) fuel p (w : world) :
  exists used, stdin w = used ++ stdin (snd (mostrar_submenu rt fuel p w)).
Proof.
  assert (H : extends w (snd (mostrar_submenu rt fuel p w))).
  { apply R_submenu.
    - apply extends_refl.
    - apply extends_trans.
    - apply extends_emit.
    - apply extends_record.
    - intros l rest w0 Hi. now apply extends_read with l.
    - intros p0 entries name l rest recs w0 _ _ _ Hi _.
      now apply extends_launch with l. }
  apply H.
Qed.

(** X5. The main menu returns only by the exit option: when a run of it
    returns, the last line it took from the input is, white space aside,
    [0]; the last thing on the console is the farewell and the last
    record of the log is the end of the session. *)
Theorem main_returns_only_by_exit
        (rt : runtime) (self : DashboardPOO) (fuel : nat) :
  forall (w w' : world),
    run rt self fuel MAIN w = (Return tt, w') ->
    exists used l recs out,
      stdin w = used ++ l :: stdin w'
      /\ Py.strip l = lit "0"
      /\ logfile w' = recs ++ [(INFO, lit "Sesión finalizada")]
      /\ stdout w' = out ++ [Print (nl ++ lit "👋 ¡Hasta pronto!")].
Proof.
  unfold run. induction fuel as [|fuel IH]; intros w w' H; [discriminate|].
  destruct (stdin w) as [|linea rest] eqn:Hi.
  - rewrite main_eof in H by assumption. discriminate.
  - rewrite main_iteration with (1 := Hi) in H. cbv zeta in H.
    destruct (str_eqb (Py.strip linea) (lit "0")) eqn:H0.
    + injection H as <-. apply str_eqb_eq in H0.
      exists [], linea, (logfile w), (stdout w ++ render_main self).
      repeat split; trivial.
    + destruct (lookup _ _) as [unidad|].
      * set (w1 := set_stdin rest _) in H.
        destruct (submenu_takes_lines_in_order
                    rt fuel (path_join rt (ruta_base self) unidad) w1)
          as [u Hu].
        destruct (mostrar_submenu rt fuel _ w1) as [[[]|e|] w2];
          try discriminate.
        destruct (IH _ _ H) as [used [l [recs [out [Hs [Hl [Hlog Hout]]]]]]].
        exists (linea :: u ++ used), l, recs, out.
        repeat split; trivial.
        simpl in Hu. rewrite Hu, Hs. simpl. now rewrite <- app_assoc.
      * destruct (IH _ _ H) as [used [l [recs [out [Hs [Hl [Hlog Hout]]]]]]].
        exists (linea :: used), l, recs, out.
        repeat split; trivial.
        simpl in Hs. now rewrite Hs.
Qed.

(* ------------------------------------------------------------------ *)
(** ** The number shown and the number typed *)

Ltac one_digit k IH :=
  match goal with
  | |- Py.parse_digits ?nd (Z.of_nat ?a) ?prev
         (Py.digits_of_uint (_ ?d)) = _ =>
    change (Py.parse_digits nd (Z.of_nat a) prev (Py.digits_of_uint (_ d)))
      with (Py.parse_digits nd (10 * Z.of_nat a + k)%Z true
                            (Py.digits_of_uint d));
    cbn [Nat.of_uint_acc];
    match goal with
    | |- _ = Some (Z.of_nat (Nat.of_uint_acc d ?x)) =>
      replace (10 * Z.of_nat a + k)%Z with (Z.of_nat x)
        by (rewrite Nat.tail_mul_spec; lia);
      rewrite IH; destruct d; reflexivity
    end
  end.

Lemma parse_digits_of_uint (nd : N -> option N) (d : Decimal.uint) :
  forall (a : nat) (prev : bool),
    Py.parse_digits nd (Z.of_nat a) prev (Py.digits_of_uint d)
    = match d with
      | Decimal.Nil => if prev then Some (Z.of_nat a) else None
      | _ => Some (Z.of_nat (Nat.of_uint_acc d a))
      end.
Proof.
  induction d as [|d IH|d IH|d IH|d IH|d IH|d IH|d IH|d IH|d IH|d IH];
    intros a prev; [reflexivity|..].
  - one_digit 0%Z IH.
  - one_digit 1%Z IH.
  - one_digit 2%Z IH.
  - one_digit 3%Z IH.
  - one_digit 4%Z IH.
  - one_digit 5%Z IH.
  - one_digit 6%Z IH.
  - one_digit 7%Z IH.
  - one_digit 8%Z IH.
  - one_digit 9%Z IH.
Qed.

Lemma digits_are_plain (d : Decimal.uint) :
  Forall (fun c => Py.isspace c = false) (Py.digits_of_uint d).
Proof. induction d; constructor; trivial. Qed.

Lemma lstrip_plain (s : str) :
  Forall (fun c => Py.isspace c = false) s -> Py.lstrip s = s.
Proof. intros [|c r Hc _]; [reflexivity|]. simpl. now rewrite Hc. Qed.

Lemma strip_plain (s : str) :
  Forall (fun c => Py.isspace c = false) s -> Py.strip s = s.
Proof.
  intros H. unfold Py.strip.
  rewrite (lstrip_plain H), lstrip_plain by now apply Forall_rev.
  apply rev_involutive.
Qed.

(** What [str] prints of a number, [int] reads back. *)
Lemma int_str_of_nat (nd : N -> option N) (n : nat) :
  Py.int nd (Py.str_of_nat n) = Some (Z.of_nat n).
Proof.
  unfold Py.int, Py.str_of_nat.
  rewrite strip_plain by apply digits_are_plain.
  pose proof (DecimalNat.Unsigned.of_to n) as Hn.
  unfold Nat.of_uint in Hn.
  pose proof (parse_digits_of_uint nd (Nat.to_uint n) 0 false) as Hp.
  destruct (Nat.to_uint n) as [|d|d|d|d|d|d|d|d|d|d] eqn:E;
    [|rewrite Hn in Hp; exact Hp..].
  destruct n; [discriminate E|].
  simpl in Hn. discriminate Hn.
Qed.

Lemma numbered_nth (l : list str) : forall (k j : nat),
  j < List.length l ->
  nth_error
    (map (fun ix => Print (Py.str_of_nat (fst ix) ++ lit " - " ++ snd ix))
         (enumerate l k)) j
  = Some (Print (Py.str_of_nat (k + j) ++ lit " - " ++ nth j l [])).
Proof.
  induction l as [|x l IH]; intros k j Hj; [simpl in Hj; lia|].
  destruct j as [|j].
  - simpl. now rewrite Nat.add_0_r.
  - simpl in Hj. simpl enumerate. simpl map. simpl nth_error.
    rewrite IH by lia. simpl nth.
    now replace (S k + j) with (k + S j) by lia.
Qed.

Section MoreOfTheController.

Variable rt : runtime.
Variable self : DashboardPOO.

Lemma submenu_choice_step
      (fuel : nat) (p : str) (w : world) (entries : list DirEntry.t)
      (linea : str) (rest : list str) (z : Z) :
  scandir w p = inr entries ->
  stdin w = linea :: rest ->
  Py.int (nd_value rt) (Py.strip linea) = Some z ->
  (1 <= z <= Z.of_nat (List.length (subcarpetas_de entries)))%Z ->
  mostrar_submenu rt (S fuel) p w
  = match try_except
            (mostrar_menu_scripts
               rt fuel
               (path_join rt p (nth (Z.to_nat (z - 1))
                                    (subcarpetas_de entries) [])))
            is_ValueError
            (fun _ => print (nl ++ lit "⚠️ Por favor, ingrese un número válido"))
            (set_stdin rest (emit (render_topic (subcarpetas_de entries)) w))
    with
    | (Return _, w2) => mostrar_submenu rt fuel p w2
    | (Raise e, w2) => (Raise e, w2)
    | (OutOfFuel, w2) => (OutOfFuel, w2)
    end.
Proof.
  intros Hs Hi Hz Hrange.
  rewrite submenu_iteration with (1 := Hs) (2 := Hi). cbv zeta.
  rewrite chosen_is_not_zero with (rt := rt) (z := z) by (trivial; lia).
  unfold try_except at 1, elegir_tema. rewrite Hz. cbv zeta.
  rewrite in_range by exact Hrange. reflexivity.
Qed.

(** X6. At TOPIC, a number n between 1 and the count of the listed
    folders (however it is written: [int] decides) enters the menu of
    scripts of the n-th folder, joined to the path of the unit, and then
    goes on with the topic menu. An error of the listing of that folder
    which is not a [ValueError] leaves the topic menu as well; when the
    folder can be listed, the choice [0] in the menu of scripts leads
    back to the topic menu, which lists its directory again. *)
Theorem topic_choice_enters_scripts
        (fuel : nat) (p : str) (w : world) (entries : list DirEntry.t)
        (linea : str) (rest : list str) (z : Z) :
  let subcarpetas := subcarpetas_de entries in
  let tema := path_join rt p (nth (Z.to_nat (z - 1)) subcarpetas []) in
  scandir w p = inr entries ->
  stdin w = linea :: rest ->
  Py.int (nd_value rt) (Py.strip linea) = Some z ->
  (1 <= z <= Z.of_nat (List.length subcarpetas))%Z ->
  let w1 := set_stdin rest (emit (render_topic subcarpetas) w) in
  run rt self (S fuel) (TOPIC p) w
    = (try_except (run rt self fuel (SCRIPT tema)) is_ValueError
                  (fun _ => print (nl ++ lit "⚠️ Por favor, ingrese un número válido")) ;;;
       run rt self fuel (TOPIC p)) w1
  /\ (forall e, scandir w tema = inl e -> is_ValueError e = false ->
        run rt self (S (S fuel)) (TOPIC p) w = (Raise e, w1))
  /\ (forall es l2 rest2,
        scandir w tema = inr es ->
        rest = l2 :: rest2 ->
        Py.strip l2 = lit "0" ->
        run rt self (S (S fuel)) (TOPIC p) w
        = run rt self (S fuel) (TOPIC p)
              (set_stdin rest2 (emit (render_script (scripts_de es)) w1))).
Proof.
  intros subcarpetas tema Hs Hi Hz Hrange w1. unfold run.
  assert (Hstep : forall f,
            mostrar_submenu rt (S f) p w
            = match try_except (mostrar_menu_scripts rt f tema) is_ValueError
                      (fun _ => print (nl ++ lit "⚠️ Por favor, ingrese un número válido"))
                      w1 with
              | (Return _, w2) => mostrar_submenu rt f p w2
              | (Raise e, w2) => (Raise e, w2)
              | (OutOfFuel, w2) => (OutOfFuel, w2)
              end)
    by (intros f; now apply submenu_choice_step with (linea := linea) (z := z)).
  split; [|split].
  - rewrite Hstep. unfold bind.
    destruct (try_except _ _ _ w1) as [[[]|e|] w2]; reflexivity.
  - intros e He Hne. rewrite Hstep. unfold try_except.
    rewrite scripts_listing_error with (e := e) by exact He.
    now rewrite Hne.
  - intros es l2 rest2 Hes -> H0. rewrite Hstep. unfold try_except.
    rewrite scripts_iteration with (entries := es) (linea := l2)
                                   (rest := rest2) by (trivial; reflexivity).
    cbv zeta. now rewrite H0, str_eqb_refl.
Qed.


(** X8. The viewer always returns, whatever the file: it never raises,
    reads no input and starts nothing, and it adds exactly one record to
    the log, of level INFO when it returns the text and of level ERROR
    when it returns [None], which it does exactly when the read failed. *)
Theorem view_always_returns_and_logs_once (ruta_script : str) (w : world) :
  exists r w' lv msg,
    mostrar_codigo rt ruta_script w = (Return r, w')
    /\ logfile w' = logfile w ++ [(lv, msg)]
    /\ (r = None <-> lv = ERROR)
    /\ (r <> None <-> lv = INFO)
    /\ (r = None <-> read_error w (path_abspath rt ruta_script) <> None)
    /\ stdin w' = stdin w /\ processes w' = processes w
    /\ scandir w' = scandir w /\ read_bytes w' = read_bytes w.
Proof.
  destruct (mostrar_codigo_cases rt ruta_script w)
    as [[bs [t [Hr [Hd Hn]]]]|[e He]].
  - rewrite mostrar_codigo_ok with (bs := bs) (t := t) by assumption.
    eexists _, _, INFO, _. split; [reflexivity|].
    split; [reflexivity|]. rewrite Hn.
    repeat split; try reflexivity; try discriminate; congruence.
  - rewrite mostrar_codigo_error with (e := e) by assumption.
    eexists _, _, ERROR, _. split; [reflexivity|].
    split; [reflexivity|]. rewrite He.
    repeat split; try reflexivity; try discriminate; congruence.
Qed.

(** X9. The end of the input is not handled: at the prompt of any menu
    it raises [EOFError] out of the menu, the menu rendered and nothing
    logged; and it goes up through the menus that called it, so a program
    whose input ends in the topic menu ends with [EOFError]. *)
Theorem end_of_input_raises_EOFError (fuel : nat) (w : world) :
  stdin w = [] ->
  run rt self (S fuel) MAIN w = (Raise EOFError, emit (render_main self) w)
  /\ (forall s l, listing s w = Some l ->
        run rt self (S fuel) s w = (Raise EOFError, emit (render s l) w))
  /\ (forall tecla unidad l,
        Py.strip tecla <> lit "0" ->
        lookup (Py.strip tecla) (unidades self) = Some unidad ->
        listing (TOPIC (path_join rt (ruta_base self) unidad)) w = Some l ->
        run rt self (S (S fuel)) MAIN (set_stdin [tecla] w)
        = (Raise EOFError,
           set_stdin [] (emit (render_main self ++ render_topic l) w))).
Proof.
  intros Hi. split; [|split].
  - unfold run. now apply main_eof.
  - intros s l Hl. destruct s as [|p|p]; unfold listing in Hl;
      [discriminate| |];
      destruct (scandir w p) as [e|es] eqn:Hs; try discriminate;
      injection Hl as <-; unfold run, render.
    + now apply submenu_eof.
    + now apply scripts_eof.
  - intros tecla unidad l Ht Hk Hl. unfold run, listing in *.
    destruct (scandir w _) as [e|es] eqn:Hs; [discriminate|].
    injection Hl as <-.
    rewrite main_iteration with (linea := tecla) (rest := [])
      by reflexivity.
    cbv zeta. apply str_eqb_neq in Ht. rewrite Ht, Hk.
    rewrite submenu_eof with (entries := es) by (trivial; reflexivity).
    f_equal. unfold set_stdin, emit; simpl. now rewrite <- app_assoc.
Qed.

(** X11. The number shown selects the entry shown: in a menu of
    folders, the line numbered i names the i-th listed folder, and typing
    i as it is printed ([str] and [int] agree), white space around it or
    not, enters the menu of scripts of that same folder. *)
Theorem shown_number_selects_shown_entry
        (fuel : nat) (p : str) (w : world) (entries : list DirEntry.t)
        (linea : str) (rest : list str) (i : nat) :
  let subcarpetas := subcarpetas_de entries in
  let nombre := nth (i - 1) subcarpetas [] in
  scandir w p = inr entries ->
  stdin w = linea :: rest ->
  1 <= i <= List.length subcarpetas ->
  Py.strip linea = Py.str_of_nat i ->
  let w1 := set_stdin rest (emit (render_topic subcarpetas) w) in
  nth_error (numbered subcarpetas) (i - 1)
    = Some (Print (Py.str_of_nat i ++ lit " - " ++ nombre))
  /\ run rt self (S fuel) (TOPIC p) w
     = (try_except (run rt self fuel (SCRIPT (path_join rt p nombre)))
                   is_ValueError
                   (fun _ => print (nl ++ lit "⚠️ Por favor, ingrese un número válido")) ;;;
        run rt self fuel (TOPIC p)) w1.
Proof.
  intros subcarpetas nombre Hs Hi Hrange Hl w1. split.
  - unfold numbered.
    rewrite numbered_nth with (k := 1) (j := i - 1) by lia.
    replace (1 + (i - 1)) with i by lia. reflexivity.
  - unfold run.
    rewrite submenu_choice_step
      with (entries := entries) (linea := linea) (rest := rest)
           (z := Z.of_nat i);
      [|assumption|assumption|rewrite Hl; apply int_str_of_nat
       |fold subcarpetas; lia].
    replace (Z.to_nat (Z.of_nat i - 1)) with (i - 1) by lia.
    fold subcarpetas. fold nombre. fold w1. unfold bind.
    destruct (try_except _ _ _ w1) as [[[]|e|] w2]; reflexivity.
Qed.

End MoreOfTheController.
(* ------------------------------------------------------------------ *)
(** ** The properties on the disk of the examples *)

Lemma listers_names_or_error_witness :
  obtener_subcarpetas Disk.unidad1 (Disk.demo [])
    = (Return [lit "ClassesIntro"], Disk.demo [])
  /\ obtener_scripts Disk.tema1 (Disk.demo [])
     = (Return [lit "hello.py"; lit "vacio.py"; lit "dos.py"], Disk.demo [])
  /\ obtener_scripts (lit "/repo/Unidad 2 - Herencia y Polimorfismo")
                     (Disk.demo [])
     = (Raise (OSError FileNotFoundError
                       (lit "/repo/Unidad 2 - Herencia y Polimorfismo")),
        Disk.demo []).
Proof.
  split; [|split].
  - exact (proj1 (proj1 (listers_names_or_error Disk.unidad1 (Disk.demo []))
                        _ eq_refl)).
  - exact (proj1 (proj2 (proj2
             (proj1 (listers_names_or_error Disk.tema1 (Disk.demo []))
                    _ eq_refl)))).
  - exact (proj2 (proj2 (listers_names_or_error
                           (lit "/repo/Unidad 2 - Herencia y Polimorfismo")
                           (Disk.demo []))
                        _ eq_refl)).
Defined.

(** C3, as stated, fails on a file with a Windows line end: the text the
    viewer returns is not the decoding of the bytes on disk. *)
Lemma view_changes_line_terminators :
  exists bs t,
    read_bytes (Disk.demo []) (path_abspath posix Disk.dos) = inr bs
    /\ Utf8.decode_bytes bs = Some t
    /\ fst (mostrar_codigo posix Disk.dos (Disk.demo [])) <> Return (Some t).
Proof.
  exists [x61; x0d; x0a; x62], [97; 13; 10; 98]%N.
  repeat split. vm_compute. discriminate.
Qed.

Lemma view_returns_text_witness :
  read_bytes (Disk.demo []) (path_abspath posix Disk.dos)
    = inr [x61; x0d; x0a; x62]
  /\ Utf8.decode_bytes [x61; x0d; x0a; x62] = Some [97; 13; 10; 98]%N
  /\ fst (mostrar_codigo posix Disk.dos (Disk.demo []))
     = Return (Some [97; 10; 98]%N)
  /\ universal_newlines [97; 13; 10; 98]%N [97; 10; 98]%N
  /\ fst (mostrar_codigo posix Disk.dos (Disk.demo []))
     <> Return (Some [97; 13; 10; 98]%N).
Proof.
  assert (Hr : read_bytes (Disk.demo []) (path_abspath posix Disk.dos)
               = inr [x61; x0d; x0a; x62]) by reflexivity.
  assert (Hd : Utf8.decode_bytes [x61; x0d; x0a; x62]
               = Some [97; 13; 10; 98]%N) by reflexivity.
  split; [exact Hr|]. split; [exact Hd|].
  destruct (@view_returns_text_with_universal_newlines
              posix Disk.dos (Disk.demo []) _ _ Hr Hd)
    as [texto [Hv [Ht [Hu [_ [_ [_ Hiff]]]]]]].
  assert (E : texto = [97; 10; 98]%N) by (rewrite Ht; reflexivity).
  rewrite E in Hv, Hu.
  split; [exact Hv|]. split; [exact Hu|].
  intros H. apply Hiff in H. apply H. simpl. tauto.
Defined.

Lemma view_failure_witness :
  read_error (Disk.demo []) (path_abspath posix (lit "/repo/nada.py"))
    = Some (OSError FileNotFoundError (lit "/repo/nada.py"))
  /\ exists w' aviso msg,
      mostrar_codigo posix (lit "/repo/nada.py") (Disk.demo [])
        = (Return None, w')
      /\ stdout w' = stdout (Disk.demo []) ++ [aviso]
      /\ is_warning aviso = true
      /\ logfile w' = logfile (Disk.demo []) ++ [(ERROR, msg)]
      /\ (exists pre post, msg = pre ++ lit "/repo/nada.py" ++ post)
      /\ stdin w' = stdin (Disk.demo [])
      /\ processes w' = processes (Disk.demo []).
Proof.
  assert (H : read_error (Disk.demo [])
                         (path_abspath posix (lit "/repo/nada.py"))
              = Some (OSError FileNotFoundError (lit "/repo/nada.py")))
    by reflexivity.
  split; [exact H|].
  exact (@view_failure_is_reported_not_raised
           posix (lit "/repo/nada.py") (Disk.demo []) _ H).
Defined.


Lemma launcher_witness :
  os_name posix <> lit "nt"
  /\ spawn_error (Disk.demo [])
                 [lit "xterm"; lit "-hold"; lit "-e"; lit "python3"; Disk.hello]
     = None
  /\ processes (snd (ejecutar_codigo posix Disk.hello (Disk.demo [])))
     = [[lit "xterm"; lit "-hold"; lit "-e"; lit "python3"; Disk.hello]]
  /\ logfile (snd (ejecutar_codigo posix Disk.hello (Disk.demo [])))
     = [(INFO, lit "Script ejecutado: " ++ Disk.hello)]
  /\ spawn_error sin_terminal
                 [lit "xterm"; lit "-hold"; lit "-e"; lit "python3"; Disk.hello]
     = Some (OSError FileNotFoundError (lit "xterm"))
  /\ processes (snd (ejecutar_codigo posix Disk.hello sin_terminal)) = []
  /\ map fst (logfile (snd (ejecutar_codigo posix Disk.hello sin_terminal)))
     = [ERROR]
  /\ List.length (stdout (snd (ejecutar_codigo posix Disk.hello sin_terminal)))
     = 1.
Proof.
  assert (Hos : os_name posix <> lit "nt") by (vm_compute; discriminate).
  assert (Hok : spawn_error (Disk.demo [])
                  [lit "xterm"; lit "-hold"; lit "-e"; lit "python3";
                   Disk.hello] = None) by reflexivity.
  assert (Hno : spawn_error sin_terminal
                  [lit "xterm"; lit "-hold"; lit "-e"; lit "python3";
                   Disk.hello]
                = Some (OSError FileNotFoundError (lit "xterm")))
    by reflexivity.
  split; [exact Hos|]. split; [exact Hok|].
  destruct (@launcher_spawns_terminal_and_never_raises
              posix Disk.hello (Disk.demo []))
    as [argv [_ [Hx [Hstart _]]]].
  rewrite (Hx Hos) in Hstart.
  destruct (Hstart Hok) as [_ [Hp [Hl _]]].
  split; [exact Hp|]. split; [exact Hl|]. split; [exact Hno|].
  destruct (@launcher_spawns_terminal_and_never_raises
              posix Disk.hello sin_terminal)
    as [argv' [_ [Hx' [_ [Hfail _]]]]].
  rewrite (Hx' Hos) in Hfail.
  destruct (Hfail _ Hno) as [_ [Hp' [Hl' [Ho' _]]]].
  split; [exact Hp'|]. split; [now rewrite Hl'|]. now rewrite Ho'.
Defined.


Lemma back_from_topic_witness :
  scandir (Disk.demo ["0"]) Disk.unidad1
    = inr [Disk.dir "ClassesIntro"; Disk.file "LEEME.txt"]
  /\ stdin (Disk.demo ["0"]) = [lit "0"]
  /\ Py.strip (lit "0") = lit "0"
  /\ run posix tablero 1 (TOPIC Disk.unidad1) (Disk.demo ["0"])
     = (Return tt,
        set_stdin [] (emit (render_topic [lit "ClassesIntro"])
                           (Disk.demo ["0"]))).
Proof.
  assert (Hs : scandir (Disk.demo ["0"]) Disk.unidad1
               = inr [Disk.dir "ClassesIntro"; Disk.file "LEEME.txt"])
    by reflexivity.
  assert (Hi : stdin (Disk.demo ["0"]) = [lit "0"]) by reflexivity.
  assert (H0 : Py.strip (lit "0") = lit "0") by reflexivity.
  split; [exact Hs|]. split; [exact Hi|]. split; [exact H0|].
  exact (proj1 (@back_from_topic_returns_to_main
                  posix tablero 0 Disk.unidad1 (Disk.demo ["0"])
                  _ _ _ Hs Hi H0)).
Defined.

(** C1, as stated, fails when the directory of the unit is missing: the
    key [2] is in the catalog, and the program ends with the error of the
    listing although the exit option was never chosen. *)
Lemma catalog_key_without_directory_raises :
  lookup (Py.strip (lit "2")) (unidades tablero)
    = Some (lit "Unidad 2 - Herencia y Polimorfismo")
  /\ fst (run posix tablero 3 MAIN (Disk.demo ["2"; "0"; "0"]))
     = Raise (OSError FileNotFoundError
                      (lit "/repo/Unidad 2 - Herencia y Polimorfismo")).
Proof. split; vm_compute; reflexivity. Qed.

Lemma catalog_key_witness :
  stdin (Disk.demo ["1"; "0"; "0"]) = [lit "1"; lit "0"; lit "0"]
  /\ Py.strip (lit "1") <> lit "0"
  /\ lookup (Py.strip (lit "1")) (unidades tablero)
     = Some (lit "Unidad 1 - Fundamentos POO")
  /\ run posix tablero 2 MAIN (Disk.demo ["1"; "0"; "0"])
     = (run posix tablero 1 (TOPIC Disk.unidad1) ;;; run posix tablero 1 MAIN)
         (set_stdin [lit "0"; lit "0"]
                    (emit (render_main tablero) (Disk.demo ["1"; "0"; "0"]))).
Proof.
  assert (Hi : stdin (Disk.demo ["1"; "0"; "0"]) = [lit "1"; lit "0"; lit "0"])
    by reflexivity.
  assert (H0 : Py.strip (lit "1") <> lit "0") by (vm_compute; discriminate).
  assert (Hk : lookup (Py.strip (lit "1")) (unidades tablero)
               = Some (lit "Unidad 1 - Fundamentos POO")) by reflexivity.
  split; [exact Hi|]. split; [exact H0|]. split; [exact Hk|].
  exact (proj1 (@catalog_key_enters_topic
                  posix tablero 1 (Disk.demo ["1"; "0"; "0"]) _ _ _ Hi H0 Hk)).
Defined.




(** A whole session on the disk of the examples: unit 1, its topic, the
    script [hello.py] viewed and declined, the acknowledgment, and the
    three ways back. The program returns, with the view and the end of
    the session in the log and no process started. *)
Example sesion_completa :
  let fin := run posix tablero 9 MAIN
                 (Disk.demo ["1"; " 1 "; "1"; "N"; ""; "0"; "0"; "0"]) in
  fst fin = Return tt
  /\ stdin (snd fin) = []
  /\ logfile (snd fin)
     = [(INFO, lit "Archivo visualizado: " ++ Disk.hello);
        (INFO, lit "Sesión finalizada")]
  /\ processes (snd fin) = []
  /\ In (Print (lit "print('hi')")) (stdout (snd fin)).
Proof.
  vm_compute. repeat split. tauto.
Qed.

Lemma nothing_is_launched_without_consent_witness :
  (forall l,
      In l (stdin (Disk.demo ["1"; "1"; "1"; "N"; ""; "0"; "0"; "0"])) ->
      Py.upper l <> lit "S")
  /\ processes (snd (run posix tablero 9 MAIN
                         (Disk.demo ["1"; "1"; "1"; "N"; ""; "0"; "0"; "0"])))
     = processes (Disk.demo ["1"; "1"; "1"; "N"; ""; "0"; "0"; "0"]).
Proof.
  assert (H : forall l,
             In l (stdin (Disk.demo ["1"; "1"; "1"; "N"; ""; "0"; "0"; "0"])) ->
             Py.upper l <> lit "S").
  { intros l Hl. vm_compute in Hl.
    repeat (destruct Hl as [<-|Hl]; [vm_compute; discriminate|]).
    destruct Hl. }
  split; [exact H|].
  exact (@nothing_is_launched_without_consent posix tablero 9 MAIN _ H).
Defined.

Lemma main_returns_only_by_exit_witness :
  run posix tablero 3 MAIN (Disk.demo ["x"; " 0 "; "1"])
    = (Return tt, snd (run posix tablero 3 MAIN (Disk.demo ["x"; " 0 "; "1"])))
  /\ exists used l recs out,
      stdin (Disk.demo ["x"; " 0 "; "1"])
        = used ++ l :: stdin (snd (run posix tablero 3 MAIN
                                       (Disk.demo ["x"; " 0 "; "1"])))
      /\ Py.strip l = lit "0"
      /\ logfile (snd (run posix tablero 3 MAIN (Disk.demo ["x"; " 0 "; "1"])))
         = recs ++ [(INFO, lit "Sesión finalizada")]
      /\ stdout (snd (run posix tablero 3 MAIN (Disk.demo ["x"; " 0 "; "1"])))
         = out ++ [Print (nl ++ lit "👋 ¡Hasta pronto!")].
Proof.
  assert (H : run posix tablero 3 MAIN (Disk.demo ["x"; " 0 "; "1"])
              = (Return tt,
                 snd (run posix tablero 3 MAIN (Disk.demo ["x"; " 0 "; "1"]))))
    by (vm_compute; reflexivity).
  split; [exact H|].
  exact (@main_returns_only_by_exit posix tablero 3 _ _ H).
Defined.

Lemma topic_choice_witness :
  scandir (Disk.demo [" +01 "; "0"]) Disk.unidad1
    = inr [Disk.dir "ClassesIntro"; Disk.file "LEEME.txt"]
  /\ stdin (Disk.demo [" +01 "; "0"]) = [lit " +01 "; lit "0"]
  /\ Py.int (nd_value posix) (Py.strip (lit " +01 ")) = Some 1%Z
  /\ exists w',
      run posix tablero 2 (TOPIC Disk.unidad1) (Disk.demo [" +01 "; "0"])
        = run posix tablero 1 (TOPIC Disk.unidad1) w'
      /\ stdin w' = []
      /\ logfile w' = [].
Proof.
  assert (Hs : scandir (Disk.demo [" +01 "; "0"]) Disk.unidad1
               = inr [Disk.dir "ClassesIntro"; Disk.file "LEEME.txt"])
    by reflexivity.
  assert (Hi : stdin (Disk.demo [" +01 "; "0"]) = [lit " +01 "; lit "0"])
    by reflexivity.
  assert (Hz : Py.int (nd_value posix) (Py.strip (lit " +01 ")) = Some 1%Z)
    by reflexivity.
  assert (Hn : (1 <= 1 <= Z.of_nat
                  (List.length
                     (subcarpetas_de
                        [Disk.dir "ClassesIntro"; Disk.file "LEEME.txt"])))%Z)
    by (vm_compute; split; discriminate).
  assert (Hes : scandir (Disk.demo [" +01 "; "0"])
                  (path_join posix Disk.unidad1
                     (nth (Z.to_nat (1 - 1))
                          (subcarpetas_de
                             [Disk.dir "ClassesIntro"; Disk.file "LEEME.txt"])
                          []))
                = inr [Disk.file "hello.py"; Disk.file "notas.txt";
                       Disk.file "vacio.py"; Disk.dir "viejo.py";
                       Disk.file "dos.py"])
    by (vm_compute; reflexivity).
  repeat (split; [assumption|]).
  eexists. split.
  - exact (proj2 (proj2 (@topic_choice_enters_scripts
                           posix tablero 0 Disk.unidad1
                           (Disk.demo [" +01 "; "0"]) _ _ _ 1%Z
                           Hs Hi Hz Hn))
                 _ _ _ Hes eq_refl eq_refl).
  - split; reflexivity.
Defined.


Lemma end_of_input_witness :
  stdin (Disk.demo []) = []
  /\ run posix tablero 1 MAIN (Disk.demo [])
     = (Raise EOFError, emit (render_main tablero) (Disk.demo []))
  /\ fst (run posix tablero 2 MAIN (set_stdin [lit "1"] (Disk.demo [])))
     = Raise EOFError.
Proof.
  assert (Hi : stdin (Disk.demo []) = []) by reflexivity.
  split; [exact Hi|].
  destruct (@end_of_input_raises_EOFError posix tablero 0 (Disk.demo []) Hi)
    as [Hmain [_ Hup]].
  split; [exact Hmain|].
  rewrite (Hup (lit "1") (lit "Unidad 1 - Fundamentos POO")
               [lit "ClassesIntro"]); [reflexivity| | |].
  - vm_compute; discriminate.
  - reflexivity.
  - reflexivity.
Defined.

Lemma enough_fuel_witness :
  List.length (stdin (Disk.demo ["1"; "x"])) < 3
  /\ fst (run posix tablero 3 MAIN (Disk.demo ["1"; "x"])) <> OutOfFuel.
Proof.
  assert (H : List.length (stdin (Disk.demo ["1"; "x"])) < 3)
    by (vm_compute; lia).
  split; [exact H|].
  exact (@enough_fuel posix tablero 3 MAIN _ H).
Defined.

Lemma shown_number_witness :
  scandir (Disk.demo [" 1"]) Disk.unidad1
    = inr [Disk.dir "ClassesIntro"; Disk.file "LEEME.txt"]
  /\ stdin (Disk.demo [" 1"]) = [lit " 1"]
  /\ Py.strip (lit " 1") = Py.str_of_nat 1
  /\ nth_error
       (numbered (subcarpetas_de
                    [Disk.dir "ClassesIntro"; Disk.file "LEEME.txt"])) 0
     = Some (Print (lit "1 - ClassesIntro")).
Proof.
  assert (Hs : scandir (Disk.demo [" 1"]) Disk.unidad1
               = inr [Disk.dir "ClassesIntro"; Disk.file "LEEME.txt"])
    by reflexivity.
  assert (Hi : stdin (Disk.demo [" 1"]) = [lit " 1"]) by reflexivity.
  assert (Hl : Py.strip (lit " 1") = Py.str_of_nat 1) by reflexivity.
  assert (Hn : 1 <= 1 <= List.length
                 (subcarpetas_de
                    [Disk.dir "ClassesIntro"; Disk.file "LEEME.txt"]))
    by (vm_compute; lia).
  repeat (split; [assumption|]).
  exact (proj1 (@shown_number_selects_shown_entry
                  posix tablero 0 Disk.unidad1 (Disk.demo [" 1"])
                  _ _ _ 1 Hs Hi Hn Hl)).
Defined.
